(** * Pomodoro timer (timer.js): a shallow embedding and its properties

    The client-side timer script keeps its whole state in module-level
    variables, reads and writes a handful of page elements, and talks to the
    browser through [setInterval], [setTimeout], [localStorage] and [fetch].
    The embedding threads one [State] record through every function of the
    script: the module variables, the page elements the script looks up by id,
    and the part of the browser the script can observe.

    Conventions.
    - JavaScript numbers that hold counts, minutes and seconds are [Z];
      [NaN] is [None] where an operation can produce it.
    - A [Date] is the number of milliseconds since the epoch; [new Date()]
      takes the current instant as an explicit argument [now].
    - Goal ids are the AUTO_INCREMENT keys of the [goals] table, rendered as
      the [value] of the goal selector's options; the placeholder option has
      the empty value, which is [None] here.
    - The timer page carries every element the script asks for, so the
      [if (element)] guards are taken on their true side.  Writes that only
      repaint the page (time display, progress bar, session list markup) are
      left out; the status line and the controls' [disabled] flags are kept.
*)

From Stdlib Require Import ZArith List String Ascii Bool Lia.
From stdpp Require Import base option list gmap strings pretty.
Import ListNotations.
Local Open Scope Z_scope.

(** ** JavaScript helpers *)

(** Errors the script can raise. *)
Inductive JsError :=
  | ReferenceError (name : string)
  | TypeError (what : string).

(** [StrWhiteSpaceChar], on the ASCII range: TAB, LF, VT, FF, CR, SP. *)
Definition isStrWhiteSpaceChar (c : ascii) : bool :=
  let n := N_of_ascii c in ((9 <=? n) && (n <=? 13) || (n =? 32))%N.

Fixpoint trimStart (s : string) : string :=
  match s with
  | String c r => if isStrWhiteSpaceChar c then trimStart r else s
  | EmptyString => s
  end.

(** Value of a digit in radix up to 36. *)
Definition digitValue (c : ascii) : option Z :=
  let n := Z.of_N (N_of_ascii c) in
  if (48 <=? n) && (n <=? 57) then Some (n - 48)
  else if (97 <=? n) && (n <=? 122) then Some (n - 87)
  else if (65 <=? n) && (n <=? 90) then Some (n - 55)
  else None.

(** The longest prefix of [s] made of radix-[R] digits. *)
Fixpoint radixDigits (R : Z) (s : string) : list Z :=
  match s with
  | String c r =>
      match digitValue c with
      | Some d => if d <? R then d :: radixDigits R r else []
      | None => []
      end
  | EmptyString => []
  end.

Definition mathInt (R : Z) (ds : list Z) : Z :=
  fold_left (fun acc d => acc * R + d) ds 0.

Definition stripSign (s : string) : Z * string :=
  match s with
  | String "-" r => (-1, r)
  | String "+" r => (1, r)
  | _ => (1, s)
  end.

Definition stripHexPrefix (s : string) : Z * string :=
  match s with
  | String "0" (String "x" r) => (16, r)
  | String "0" (String "X" r) => (16, r)
  | _ => (10, s)
  end.

(** [parseInt(input)] with no radix argument (ECMA-262, 19.2.5): leading
    white space, an optional sign, an optional [0x] prefix, then the longest
    run of digits; [NaN] when that run is empty. *)
Definition parseInt (input : string) : option Z :=
  let '(sign, S1) := stripSign (trimStart input) in
  let '(R, S2) := stripHexPrefix S1 in
  match radixDigits R S2 with
  | [] => None
  | ds => Some (sign * mathInt R ds)
  end.

(** [parseInt(x) || dflt]: [NaN] and [0] are falsy. *)
Definition orDefault (n : option Z) (dflt : Z) : Z :=
  match n with
  | Some v => if v =? 0 then dflt else v
  | None => dflt
  end.

(** An attribute or query parameter may be [null]; [parseInt] first turns
    its argument into a string, and [null] becomes the text "null". *)
Definition toStringNullable (v : option string) : string :=
  match v with
  | Some str => str
  | None => "null"
  end.

(** A non-empty string is truthy. *)
Definition truthy (str : string) : bool :=
  match str with
  | EmptyString => false
  | String _ _ => true
  end.

(** ** Data model *)

Definition GoalId := positive.

(** An entry of the in-memory [sessions] array. *)
Module Session.
Record t := mk {
  startTime : option Z;       (* [None]: [undefined] *)
  endTime : Z;
  duration : option Z;        (* [None]: [NaN] *)
  isWorkSession : bool;
  goalId : option GoalId;     (* [None]: [null] *)
  goalText : option string;   (* [None]: [null] *)
  pomodoroNumber : Z;
  totalPomodoros : Z
}.
End Session.

(** An entry of the JSON array kept in [localStorage] or handed over by the
    server: the dates are ISO-8601 strings, which name an instant to the
    millisecond and are represented by that instant. *)
Module Stored.
Record t := mk {
  startTime : Z;
  endTime : Z;
  duration : option Z;        (* [None]: JSON [null] *)
  isWorkSession : bool;
  goalId : option GoalId;
  goalText : option string;
  pomodoroNumber : Z;
  totalPomodoros : Z
}.
End Stored.

Module Button.
Record t := mk { disabled : bool; textContent : string }.
Definition set_disabled (b : bool) (x : t) : t := mk b (textContent x).
Definition set_textContent (str : string) (x : t) : t := mk (disabled x) str.
End Button.

Module Input.
Record t := mk { value : string; disabled : bool }.
Definition set_value (str : string) (x : t) : t := mk str (disabled x).
Definition set_disabled (b : bool) (x : t) : t := mk (value x) b.
End Input.

(** An [<option>] of the goal selector. *)
Module GoalOption.
Record t := mk {
  value : option GoalId;                   (* [None]: the empty value *)
  text : string;
  dataEstimatedPomodoros : option string   (* [None]: attribute absent *)
}.
End GoalOption.

(** The goal [<select>]: its [value] is the value of the selected option and
    the empty string when nothing is selected. *)
Module Select.
Record t := mk {
  options : list GoalOption.t;
  selectedIndex : Z;
  disabled : bool
}.

Definition set_disabled (b : bool) (x : t) : t :=
  mk (options x) (selectedIndex x) b.

Definition selectedOption (x : t) : option GoalOption.t :=
  if 0 <=? selectedIndex x
  then nth_error (options x) (Z.to_nat (selectedIndex x))
  else None.

Definition value (x : t) : option GoalId :=
  match selectedOption x with
  | Some o => GoalOption.value o
  | None => None
  end.

(** Index of the first option carrying value [v], [-1] when there is none. *)
Fixpoint indexOfValue (v : option GoalId) (os : list GoalOption.t) (i : Z) : Z :=
  match os with
  | [] => -1
  | o :: rest =>
      if decide (GoalOption.value o = v) then i else indexOfValue v rest (i + 1)
  end.

(** [select.value = v]. *)
Definition set_value (v : option GoalId) (x : t) : t :=
  mk (options x) (indexOfValue v (options x) 0) (disabled x).

(** [select.querySelector('option[value=...]').remove()]: the first option
    with that value leaves the list. *)
Fixpoint removeFirst (v : option GoalId) (os : list GoalOption.t) : list GoalOption.t :=
  match os with
  | [] => []
  | o :: rest =>
      if decide (GoalOption.value o = v) then rest else o :: removeFirst v rest
  end.
End Select.

(** The status line; the work and ready messages interpolate two numbers. *)
Inductive Status :=
  | StatusAsRendered
  | WorkTimePomodoro (n total : Z)
  | BreakTime
  | Paused
  | ReadyToStart
  | TaskCompleted
  | ReadyForPomodoro (n total : Z).

(** Calls issued to the two stores; the script never waits for the answer. *)
Inductive Request :=
  | PostGoalComplete (goalId : GoalId)
  | PostPomodoro (goalId : option GoalId) (startTime endTime : Z)
                 (pomodoroNumber totalPomodoros : Z).

(** What the script writes with [console.error], and errors nobody catches. *)
Inductive ConsoleError :=
  | ErrorSavingToLocalStorage (e : JsError)
  | ErrorLoadingSavedSessions (e : JsError)
  | ErrorParsingServerSessions (e : JsError)
  | Uncaught (e : JsError).

(** The module variables of timer.js, the page, and the browser. *)
Record State := mkState {
  (* module variables *)
  timer : option nat;            (* interval handle; [None]: [undefined] *)
  timeLeft : Z;
  isRunning : bool;
  isPaused : bool;
  isWorkTime : bool;
  workMinutes : Z;
  breakMinutes : Z;
  sessionsCompleted : Z;
  startTime : option Z;          (* [None]: [undefined] *)
  sessions : list Session.t;
  autoStartTimer : bool;
  currentPomodoroCount : Z;
  totalPomodoros : Z;
  (* page elements *)
  statusText : Status;
  startBtn : Button.t;
  pauseBtn : Button.t;
  workMinutesInput : Input.t;
  breakMinutesInput : Input.t;
  goalSelect : Select.t;
  userId : string;               (* [data-user-id] of [#user-data] *)
  (* browser *)
  intervals : list nat;          (* live [setInterval] handles *)
  timeouts : list (nat * Z);     (* pending [setTimeout(startTimer, delay)] *)
  nextHandle : nat;
  localStorage : gmap string (list Stored.t);
  requests : list Request;
  console : list ConsoleError;
  utcOffset : Z                  (* local time minus UTC, in milliseconds *)
}.

(** Assignment to one component of the state. *)
Definition set_timer (v : option nat) (s : State) : State :=
  mkState v (timeLeft s) (isRunning s) (isPaused s) (isWorkTime s)
    (workMinutes s) (breakMinutes s) (sessionsCompleted s) (startTime s)
    (sessions s) (autoStartTimer s) (currentPomodoroCount s)
    (totalPomodoros s) (statusText s) (startBtn s) (pauseBtn s)
    (workMinutesInput s) (breakMinutesInput s) (goalSelect s) (userId s)
    (intervals s) (timeouts s) (nextHandle s) (localStorage s) (requests s)
    (console s) (utcOffset s).
Definition set_timeLeft (v : Z) (s : State) : State :=
  mkState (timer s) v (isRunning s) (isPaused s) (isWorkTime s)
    (workMinutes s) (breakMinutes s) (sessionsCompleted s) (startTime s)
    (sessions s) (autoStartTimer s) (currentPomodoroCount s)
    (totalPomodoros s) (statusText s) (startBtn s) (pauseBtn s)
    (workMinutesInput s) (breakMinutesInput s) (goalSelect s) (userId s)
    (intervals s) (timeouts s) (nextHandle s) (localStorage s) (requests s)
    (console s) (utcOffset s).
Definition set_isRunning (v : bool) (s : State) : State :=
  mkState (timer s) (timeLeft s) v (isPaused s) (isWorkTime s)
    (workMinutes s) (breakMinutes s) (sessionsCompleted s) (startTime s)
    (sessions s) (autoStartTimer s) (currentPomodoroCount s)
    (totalPomodoros s) (statusText s) (startBtn s) (pauseBtn s)
    (workMinutesInput s) (breakMinutesInput s) (goalSelect s) (userId s)
    (intervals s) (timeouts s) (nextHandle s) (localStorage s) (requests s)
    (console s) (utcOffset s).
Definition set_isPaused (v : bool) (s : State) : State :=
  mkState (timer s) (timeLeft s) (isRunning s) v (isWorkTime s)
    (workMinutes s) (breakMinutes s) (sessionsCompleted s) (startTime s)
    (sessions s) (autoStartTimer s) (currentPomodoroCount s)
    (totalPomodoros s) (statusText s) (startBtn s) (pauseBtn s)
    (workMinutesInput s) (breakMinutesInput s) (goalSelect s) (userId s)
    (intervals s) (timeouts s) (nextHandle s) (localStorage s) (requests s)
    (console s) (utcOffset s).
Definition set_isWorkTime (v : bool) (s : State) : State :=
  mkState (timer s) (timeLeft s) (isRunning s) (isPaused s) v
    (workMinutes s) (breakMinutes s) (sessionsCompleted s) (startTime s)
    (sessions s) (autoStartTimer s) (currentPomodoroCount s)
    (totalPomodoros s) (statusText s) (startBtn s) (pauseBtn s)
    (workMinutesInput s) (breakMinutesInput s) (goalSelect s) (userId s)
    (intervals s) (timeouts s) (nextHandle s) (localStorage s) (requests s)
    (console s) (utcOffset s).
Definition set_workMinutes (v : Z) (s : State) : State :=
  mkState (timer s) (timeLeft s) (isRunning s) (isPaused s) (isWorkTime s) v
    (breakMinutes s) (sessionsCompleted s) (startTime s) (sessions s)
    (autoStartTimer s) (currentPomodoroCount s) (totalPomodoros s)
    (statusText s) (startBtn s) (pauseBtn s) (workMinutesInput s)
    (breakMinutesInput s) (goalSelect s) (userId s) (intervals s)
    (timeouts s) (nextHandle s) (localStorage s) (requests s) (console s)
    (utcOffset s).
Definition set_breakMinutes (v : Z) (s : State) : State :=
  mkState (timer s) (timeLeft s) (isRunning s) (isPaused s) (isWorkTime s)
    (workMinutes s) v (sessionsCompleted s) (startTime s) (sessions s)
    (autoStartTimer s) (currentPomodoroCount s) (totalPomodoros s)
    (statusText s) (startBtn s) (pauseBtn s) (workMinutesInput s)
    (breakMinutesInput s) (goalSelect s) (userId s) (intervals s)
    (timeouts s) (nextHandle s) (localStorage s) (requests s) (console s)
    (utcOffset s).
Definition set_sessionsCompleted (v : Z) (s : State) : State :=
  mkState (timer s) (timeLeft s) (isRunning s) (isPaused s) (isWorkTime s)
    (workMinutes s) (breakMinutes s) v (startTime s) (sessions s)
    (autoStartTimer s) (currentPomodoroCount s) (totalPomodoros s)
    (statusText s) (startBtn s) (pauseBtn s) (workMinutesInput s)
    (breakMinutesInput s) (goalSelect s) (userId s) (intervals s)
    (timeouts s) (nextHandle s) (localStorage s) (requests s) (console s)
    (utcOffset s).
Definition set_startTime (v : option Z) (s : State) : State :=
  mkState (timer s) (timeLeft s) (isRunning s) (isPaused s) (isWorkTime s)
    (workMinutes s) (breakMinutes s) (sessionsCompleted s) v (sessions s)
    (autoStartTimer s) (currentPomodoroCount s) (totalPomodoros s)
    (statusText s) (startBtn s) (pauseBtn s) (workMinutesInput s)
    (breakMinutesInput s) (goalSelect s) (userId s) (intervals s)
    (timeouts s) (nextHandle s) (localStorage s) (requests s) (console s)
    (utcOffset s).
Definition set_sessions (v : list Session.t) (s : State) : State :=
  mkState (timer s) (timeLeft s) (isRunning s) (isPaused s) (isWorkTime s)
    (workMinutes s) (breakMinutes s) (sessionsCompleted s) (startTime s) v
    (autoStartTimer s) (currentPomodoroCount s) (totalPomodoros s)
    (statusText s) (startBtn s) (pauseBtn s) (workMinutesInput s)
    (breakMinutesInput s) (goalSelect s) (userId s) (intervals s)
    (timeouts s) (nextHandle s) (localStorage s) (requests s) (console s)
    (utcOffset s).
Definition set_autoStartTimer (v : bool) (s : State) : State :=
  mkState (timer s) (timeLeft s) (isRunning s) (isPaused s) (isWorkTime s)
    (workMinutes s) (breakMinutes s) (sessionsCompleted s) (startTime s)
    (sessions s) v (currentPomodoroCount s) (totalPomodoros s)
    (statusText s) (startBtn s) (pauseBtn s) (workMinutesInput s)
    (breakMinutesInput s) (goalSelect s) (userId s) (intervals s)
    (timeouts s) (nextHandle s) (localStorage s) (requests s) (console s)
    (utcOffset s).
Definition set_currentPomodoroCount (v : Z) (s : State) : State :=
  mkState (timer s) (timeLeft s) (isRunning s) (isPaused s) (isWorkTime s)
    (workMinutes s) (breakMinutes s) (sessionsCompleted s) (startTime s)
    (sessions s) (autoStartTimer s) v (totalPomodoros s) (statusText s)
    (startBtn s) (pauseBtn s) (workMinutesInput s) (breakMinutesInput s)
    (goalSelect s) (userId s) (intervals s) (timeouts s) (nextHandle s)
    (localStorage s) (requests s) (console s) (utcOffset s).
Definition set_totalPomodoros (v : Z) (s : State) : State :=
  mkState (timer s) (timeLeft s) (isRunning s) (isPaused s) (isWorkTime s)
    (workMinutes s) (breakMinutes s) (sessionsCompleted s) (startTime s)
    (sessions s) (autoStartTimer s) (currentPomodoroCount s) v
    (statusText s) (startBtn s) (pauseBtn s) (workMinutesInput s)
    (breakMinutesInput s) (goalSelect s) (userId s) (intervals s)
    (timeouts s) (nextHandle s) (localStorage s) (requests s) (console s)
    (utcOffset s).
Definition set_statusText (v : Status) (s : State) : State :=
  mkState (timer s) (timeLeft s) (isRunning s) (isPaused s) (isWorkTime s)
    (workMinutes s) (breakMinutes s) (sessionsCompleted s) (startTime s)
    (sessions s) (autoStartTimer s) (currentPomodoroCount s)
    (totalPomodoros s) v (startBtn s) (pauseBtn s) (workMinutesInput s)
    (breakMinutesInput s) (goalSelect s) (userId s) (intervals s)
    (timeouts s) (nextHandle s) (localStorage s) (requests s) (console s)
    (utcOffset s).
Definition set_startBtn (v : Button.t) (s : State) : State :=
  mkState (timer s) (timeLeft s) (isRunning s) (isPaused s) (isWorkTime s)
    (workMinutes s) (breakMinutes s) (sessionsCompleted s) (startTime s)
    (sessions s) (autoStartTimer s) (currentPomodoroCount s)
    (totalPomodoros s) (statusText s) v (pauseBtn s) (workMinutesInput s)
    (breakMinutesInput s) (goalSelect s) (userId s) (intervals s)
    (timeouts s) (nextHandle s) (localStorage s) (requests s) (console s)
    (utcOffset s).
Definition set_pauseBtn (v : Button.t) (s : State) : State :=
  mkState (timer s) (timeLeft s) (isRunning s) (isPaused s) (isWorkTime s)
    (workMinutes s) (breakMinutes s) (sessionsCompleted s) (startTime s)
    (sessions s) (autoStartTimer s) (currentPomodoroCount s)
    (totalPomodoros s) (statusText s) (startBtn s) v (workMinutesInput s)
    (breakMinutesInput s) (goalSelect s) (userId s) (intervals s)
    (timeouts s) (nextHandle s) (localStorage s) (requests s) (console s)
    (utcOffset s).
Definition set_workMinutesInput (v : Input.t) (s : State) : State :=
  mkState (timer s) (timeLeft s) (isRunning s) (isPaused s) (isWorkTime s)
    (workMinutes s) (breakMinutes s) (sessionsCompleted s) (startTime s)
    (sessions s) (autoStartTimer s) (currentPomodoroCount s)
    (totalPomodoros s) (statusText s) (startBtn s) (pauseBtn s) v
    (breakMinutesInput s) (goalSelect s) (userId s) (intervals s)
    (timeouts s) (nextHandle s) (localStorage s) (requests s) (console s)
    (utcOffset s).
Definition set_breakMinutesInput (v : Input.t) (s : State) : State :=
  mkState (timer s) (timeLeft s) (isRunning s) (isPaused s) (isWorkTime s)
    (workMinutes s) (breakMinutes s) (sessionsCompleted s) (startTime s)
    (sessions s) (autoStartTimer s) (currentPomodoroCount s)
    (totalPomodoros s) (statusText s) (startBtn s) (pauseBtn s)
    (workMinutesInput s) v (goalSelect s) (userId s) (intervals s)
    (timeouts s) (nextHandle s) (localStorage s) (requests s) (console s)
    (utcOffset s).
Definition set_goalSelect (v : Select.t) (s : State) : State :=
  mkState (timer s) (timeLeft s) (isRunning s) (isPaused s) (isWorkTime s)
    (workMinutes s) (breakMinutes s) (sessionsCompleted s) (startTime s)
    (sessions s) (autoStartTimer s) (currentPomodoroCount s)
    (totalPomodoros s) (statusText s) (startBtn s) (pauseBtn s)
    (workMinutesInput s) (breakMinutesInput s) v (userId s) (intervals s)
    (timeouts s) (nextHandle s) (localStorage s) (requests s) (console s)
    (utcOffset s).
Definition set_userId (v : string) (s : State) : State :=
  mkState (timer s) (timeLeft s) (isRunning s) (isPaused s) (isWorkTime s)
    (workMinutes s) (breakMinutes s) (sessionsCompleted s) (startTime s)
    (sessions s) (autoStartTimer s) (currentPomodoroCount s)
    (totalPomodoros s) (statusText s) (startBtn s) (pauseBtn s)
    (workMinutesInput s) (breakMinutesInput s) (goalSelect s) v
    (intervals s) (timeouts s) (nextHandle s) (localStorage s) (requests s)
    (console s) (utcOffset s).
Definition set_intervals (v : list nat) (s : State) : State :=
  mkState (timer s) (timeLeft s) (isRunning s) (isPaused s) (isWorkTime s)
    (workMinutes s) (breakMinutes s) (sessionsCompleted s) (startTime s)
    (sessions s) (autoStartTimer s) (currentPomodoroCount s)
    (totalPomodoros s) (statusText s) (startBtn s) (pauseBtn s)
    (workMinutesInput s) (breakMinutesInput s) (goalSelect s) (userId s) v
    (timeouts s) (nextHandle s) (localStorage s) (requests s) (console s)
    (utcOffset s).
Definition set_timeouts (v : list (nat * Z)) (s : State) : State :=
  mkState (timer s) (timeLeft s) (isRunning s) (isPaused s) (isWorkTime s)
    (workMinutes s) (breakMinutes s) (sessionsCompleted s) (startTime s)
    (sessions s) (autoStartTimer s) (currentPomodoroCount s)
    (totalPomodoros s) (statusText s) (startBtn s) (pauseBtn s)
    (workMinutesInput s) (breakMinutesInput s) (goalSelect s) (userId s)
    (intervals s) v (nextHandle s) (localStorage s) (requests s) (console s)
    (utcOffset s).
Definition set_nextHandle (v : nat) (s : State) : State :=
  mkState (timer s) (timeLeft s) (isRunning s) (isPaused s) (isWorkTime s)
    (workMinutes s) (breakMinutes s) (sessionsCompleted s) (startTime s)
    (sessions s) (autoStartTimer s) (currentPomodoroCount s)
    (totalPomodoros s) (statusText s) (startBtn s) (pauseBtn s)
    (workMinutesInput s) (breakMinutesInput s) (goalSelect s) (userId s)
    (intervals s) (timeouts s) v (localStorage s) (requests s) (console s)
    (utcOffset s).
Definition set_localStorage (v : gmap string (list Stored.t)) (s : State) : State :=
  mkState (timer s) (timeLeft s) (isRunning s) (isPaused s) (isWorkTime s)
    (workMinutes s) (breakMinutes s) (sessionsCompleted s) (startTime s)
    (sessions s) (autoStartTimer s) (currentPomodoroCount s)
    (totalPomodoros s) (statusText s) (startBtn s) (pauseBtn s)
    (workMinutesInput s) (breakMinutesInput s) (goalSelect s) (userId s)
    (intervals s) (timeouts s) (nextHandle s) v (requests s) (console s)
    (utcOffset s).
Definition set_requests (v : list Request) (s : State) : State :=
  mkState (timer s) (timeLeft s) (isRunning s) (isPaused s) (isWorkTime s)
    (workMinutes s) (breakMinutes s) (sessionsCompleted s) (startTime s)
    (sessions s) (autoStartTimer s) (currentPomodoroCount s)
    (totalPomodoros s) (statusText s) (startBtn s) (pauseBtn s)
    (workMinutesInput s) (breakMinutesInput s) (goalSelect s) (userId s)
    (intervals s) (timeouts s) (nextHandle s) (localStorage s) v (console s)
    (utcOffset s).
Definition set_console (v : list ConsoleError) (s : State) : State :=
  mkState (timer s) (timeLeft s) (isRunning s) (isPaused s) (isWorkTime s)
    (workMinutes s) (breakMinutes s) (sessionsCompleted s) (startTime s)
    (sessions s) (autoStartTimer s) (currentPomodoroCount s)
    (totalPomodoros s) (statusText s) (startBtn s) (pauseBtn s)
    (workMinutesInput s) (breakMinutesInput s) (goalSelect s) (userId s)
    (intervals s) (timeouts s) (nextHandle s) (localStorage s) (requests s)
    v (utcOffset s).
Definition set_utcOffset (v : Z) (s : State) : State :=
  mkState (timer s) (timeLeft s) (isRunning s) (isPaused s) (isWorkTime s)
    (workMinutes s) (breakMinutes s) (sessionsCompleted s) (startTime s)
    (sessions s) (autoStartTimer s) (currentPomodoroCount s)
    (totalPomodoros s) (statusText s) (startBtn s) (pauseBtn s)
    (workMinutesInput s) (breakMinutesInput s) (goalSelect s) (userId s)
    (intervals s) (timeouts s) (nextHandle s) (localStorage s) (requests s)
    (console s) v.

(** ** Browser primitives *)

(** [setInterval(callback, 1000)]: a fresh handle, live from now on. *)
Definition setInterval (s : State) : nat * State :=
  let h := nextHandle s in
  (h, set_nextHandle (S h) (set_intervals (intervals s ++ [h]) s)).

(** [clearInterval(h)]; clearing [undefined] or a dead handle does nothing. *)
Definition clearInterval (h : option nat) (s : State) : State :=
  match h with
  | Some i => set_intervals (filter (fun j => j <> i) (intervals s)) s
  | None => s
  end.

(** [setTimeout(() => startTimer(), delay)]: every timeout of the script has
    this one callback, so a pending timeout is its handle and its delay. *)
Definition setTimeout (delay : Z) (s : State) : State :=
  let h := nextHandle s in
  set_nextHandle (S h) (set_timeouts (timeouts s ++ [(h, delay)]) s).

(** Milliseconds in a day. *)
Definition msPerDay : Z := 86400000.

(** [d.setHours(0, 0, 0, 0); d.getTime()] in local time. *)
Definition startOfDay (offset t : Z) : Z :=
  let l := t + offset in l - l mod msPerDay - offset.

(** The key of the cached log: [`pomodoro_sessions_${userId}`]. *)
Definition storageKey (user : string) : string :=
  ("pomodoro_sessions_" ++ user)%string.

(** ** The timer *)

(** [initTimer]: read both duration fields and load the countdown with a
    Work interval. *)
Definition initTimer (s : State) : State :=
  let s := set_workMinutes
             (orDefault (parseInt (Input.value (workMinutesInput s))) 25) s in
  let s := set_breakMinutes
             (orDefault (parseInt (Input.value (breakMinutesInput s))) 5) s in
  set_timeLeft (workMinutes s * 60) s.

(** [startTimer]: nothing on a running timer; otherwise resume or record
    the start, lock the controls and open the one-second interval. *)
Definition startTimer (now : Z) (s : State) : State :=
  if isRunning s then s
  else
    let s := if isPaused s
             then set_isPaused false s
             else set_startTime (Some now) s in
    let s := set_isRunning true s in
    let s := set_statusText
               (if isWorkTime s
                then WorkTimePomodoro (currentPomodoroCount s + 1) (totalPomodoros s)
                else BreakTime) s in
    let s := set_startBtn (Button.set_disabled true (startBtn s)) s in
    let s := set_pauseBtn (Button.set_disabled false (pauseBtn s)) s in
    let s := set_workMinutesInput (Input.set_disabled true (workMinutesInput s)) s in
    let s := set_breakMinutesInput (Input.set_disabled true (breakMinutesInput s)) s in
    let s := set_goalSelect (Select.set_disabled true (goalSelect s)) s in
    let '(h, s) := setInterval s in
    set_timer (Some h) s.

(** [pauseTimer]: only a running timer is paused. *)
Definition pauseTimer (s : State) : State :=
  if isRunning s then
    let s := clearInterval (timer s) s in
    let s := set_isPaused true s in
    let s := set_isRunning false s in
    let s := set_statusText Paused s in
    let s := set_startBtn (Button.mk false "Resume") s in
    set_pauseBtn (Button.set_disabled true (pauseBtn s)) s
  else s.

(** [resetTimer]: stop the interval, return to an idle Work phase, zero the
    pomodoro count, unlock the controls and reload the countdown. *)
Definition resetTimer (s : State) : State :=
  let s := clearInterval (timer s) s in
  let s := set_isRunning false s in
  let s := set_isPaused false s in
  let s := set_isWorkTime true s in
  let s := set_statusText ReadyToStart s in
  let s := set_currentPomodoroCount 0 s in
  let s := set_startBtn (Button.mk false "Start") s in
  let s := set_pauseBtn (Button.set_disabled true (pauseBtn s)) s in
  let s := set_workMinutesInput (Input.set_disabled false (workMinutesInput s)) s in
  let s := set_breakMinutesInput (Input.set_disabled false (breakMinutesInput s)) s in
  let s := set_goalSelect (Select.set_disabled false (goalSelect s)) s in
  initTimer s.

(** ** Session accounting *)

(** [{...s, startTime: s.startTime.toISOString(), endTime: ...}]; reading
    [toISOString] off an undefined [startTime] is a [TypeError]. *)
Definition toStored (x : Session.t) : JsError + Stored.t :=
  match Session.startTime x with
  | Some t0 =>
      inr (Stored.mk t0 (Session.endTime x) (Session.duration x)
             (Session.isWorkSession x) (Session.goalId x) (Session.goalText x)
             (Session.pomodoroNumber x) (Session.totalPomodoros x))
  | None => inl (TypeError "startTime is undefined")
  end.

(** [JSON.stringify(sessions.map(...))], as the value later parsed back. *)
Fixpoint serialize (l : list Session.t) : JsError + list Stored.t :=
  match l with
  | [] => inr []
  | x :: rest =>
      match toStored x with
      | inl e => inl e
      | inr y =>
          match serialize rest with
          | inl e => inl e
          | inr ys => inr (y :: ys)
          end
      end
  end.

(** [fetch('/goals/:id/complete', {method: 'POST'})]. *)
Definition markGoalAsCompleted (goalId : GoalId) (s : State) : State :=
  set_requests (requests s ++ [PostGoalComplete goalId]) s.

(** [fetch('/goals/pomodoro', ...)]; the request body is built first. *)
Definition saveSession (session : Session.t) (s : State) : JsError + State :=
  match Session.startTime session with
  | Some t0 =>
      inr (set_requests
             (requests s ++
              [PostPomodoro (Session.goalId session) t0 (Session.endTime session)
                 (Session.pomodoroNumber session) (Session.totalPomodoros session)])
             s)
  | None => inl (TypeError "startTime is undefined")
  end.

(** [updateCurrentGoalDisplay], the change handler of the goal selector: the
    count restarts, and the target is the estimate of the selected goal, or
    1 when no goal is selected. *)
Definition updateCurrentGoalDisplay (s : State) : State :=
  match Select.value (goalSelect s), Select.selectedOption (goalSelect s) with
  | Some _, Some selectedOption =>
      let s := set_currentPomodoroCount 0 s in
      let estimatedPomodoros := GoalOption.dataEstimatedPomodoros selectedOption in
      set_totalPomodoros
        (orDefault (parseInt (toStringNullable estimatedPomodoros)) 1) s
  | _, _ =>
      let s := set_totalPomodoros 1 s in
      set_currentPomodoroCount 0 s
  end.

(** The continuation of [markGoalAsCompleted] once the Goal Store answers
    [{success}]: the goal leaves the selector and the binding is cleared. *)
Definition markGoalAsCompleted_then (goalId : GoalId) (success : bool) (s : State) : State :=
  if success then
    let sel := goalSelect s in
    let sel := Select.mk (Select.removeFirst (Some goalId) (Select.options sel))
                 (Select.selectedIndex sel) (Select.disabled sel) in
    let s := set_goalSelect (Select.set_value None sel) s in
    updateCurrentGoalDisplay s
  else s.

(** The label read off the selector when a goal is bound: the text of the
    selected option, and [null] when no option is selected. *)
Definition selectedGoalText (goalSelect : Select.t) : option string :=
  match Select.value goalSelect with
  | Some _ =>
      if 0 <=? Select.selectedIndex goalSelect
      then GoalOption.text <$> Select.selectedOption goalSelect
      else None
  | None => None
  end.

(** The record [completeSession] builds for a Work interval that ends at
    [endTime]; the pomodoro count has been incremented by then. *)
Definition sessionRecord (endTime : Z) (s : State) : Session.t :=
  Session.mk (startTime s) endTime
    ((fun t0 => (endTime - t0) / 1000) <$> startTime s)
    true
    (Select.value (goalSelect s))
    (selectedGoalText (goalSelect s))
    (currentPomodoroCount s) (totalPomodoros s).

(** [try { localStorage.setItem(key, JSON.stringify(...)) } catch ...]. *)
Definition saveToLocalStorage (s : State) : State :=
  match serialize (sessions s) with
  | inr items =>
      set_localStorage (<[storageKey (userId s) := items]> (localStorage s)) s
  | inl e => set_console (console s ++ [ErrorSavingToLocalStorage e]) s
  end.

(** The branch taken when the finished pomodoro was the last of the goal. *)
Definition taskCompleted (goalId : option GoalId) (s : State) : State :=
  let s := set_isWorkTime true s in
  let s := set_timeLeft (workMinutes s * 60) s in
  let s := set_isRunning false s in
  let s := set_statusText TaskCompleted s in
  let s := set_startBtn (Button.set_disabled false (startBtn s)) s in
  let s := set_pauseBtn (Button.set_disabled true (pauseBtn s)) s in
  let s := set_workMinutesInput (Input.set_disabled false (workMinutesInput s)) s in
  let s := set_breakMinutesInput (Input.set_disabled false (breakMinutesInput s)) s in
  let s := set_goalSelect (Select.set_disabled false (goalSelect s)) s in
  match goalId with
  | Some g => markGoalAsCompleted g s
  | None => s
  end.

(** The branch taken after an intermediate pomodoro. *)
Definition switchToBreak (s : State) : State :=
  let s := set_isWorkTime false s in
  let s := set_timeLeft (breakMinutes s * 60) s in
  let s := set_isRunning false s in
  let s := set_statusText BreakTime s in
  let s := clearInterval (timer s) s in
  setTimeout 300 s.

(** The branch taken when a Break interval ends. *)
Definition breakCompleted (s : State) : State :=
  let s := set_isWorkTime true s in
  let s := set_timeLeft (workMinutes s * 60) s in
  let s := set_isRunning false s in
  let s := set_statusText
             (ReadyForPomodoro (currentPomodoroCount s + 1) (totalPomodoros s)) s in
  let s := set_startBtn (Button.set_disabled false (startBtn s)) s in
  let s := set_pauseBtn (Button.set_disabled true (pauseBtn s)) s in
  if currentPomodoroCount s <? totalPomodoros s then
    setTimeout 1500 s
  else
    let s := set_workMinutesInput (Input.set_disabled false (workMinutesInput s)) s in
    let s := set_breakMinutesInput (Input.set_disabled false (breakMinutesInput s)) s in
    set_goalSelect (Select.set_disabled false (goalSelect s)) s.

(** [completeSession], run by the interval when the countdown reaches zero.
    An error thrown by [saveSession] is caught by nobody: the function stops
    there and the state stays as it is at that point. *)
Definition completeSession (now : Z) (s : State) : State :=
  let endTime := now in
  if isWorkTime s then
    let s := set_currentPomodoroCount (currentPomodoroCount s + 1) s in
    let goalId := Select.value (goalSelect s) in
    let session := sessionRecord endTime s in
    let s := set_sessions (sessions s ++ [session]) s in
    let s := saveToLocalStorage s in
    match saveSession session s with
    | inl e => set_console (console s ++ [Uncaught e]) s
    | inr s =>
        if totalPomodoros s <=? currentPomodoroCount s
        then taskCompleted goalId s
        else switchToBreak s
    end
  else breakCompleted s.

(** The callback [startTimer] hands to [setInterval]; it runs only while its
    own handle [h] is live. *)
Definition tick (h : nat) (now : Z) (s : State) : State :=
  if decide (h ∈ intervals s) then
    let s := set_timeLeft (timeLeft s - 1) s in
    if timeLeft s <=? 0 then
      let s := clearInterval (timer s) s in
      completeSession now s
    else s
  else s.

(** A pending timeout comes due: it leaves the queue and calls [startTimer]. *)
Definition timeout (h : nat) (now : Z) (s : State) : State :=
  if decide (h ∈ (timeouts s).*1) then
    let s := set_timeouts (filter (fun p => p.1 <> h) (timeouts s)) s in
    startTimer now s
  else s.

(** ** Page load and reconciliation *)

(** The query string of the timer page, as [URLSearchParams.get] reads it:
    [None] is [null], a parameter that is absent. *)
Module Query.
Record t := mk {
  goalId : option GoalId;
  duration : option string;
  breakDuration : option string;
  autoStart : option string
}.
End Query.

Module Params.
Record t := mk {
  goalId : option GoalId;
  duration : Z;
  breakDuration : Z;
  autoStart : bool
}.
End Params.

(** [getUrlParams]. *)
Definition getUrlParams (q : Query.t) : Params.t :=
  let autoStart := Query.autoStart q in
  Params.mk
    (Query.goalId q)
    (orDefault (parseInt (toStringNullable (Query.duration q))) 25)
    (orDefault (parseInt (toStringNullable (Query.breakDuration q))) 5)
    (bool_decide (autoStart = Some "true"%string)
     || bool_decide (autoStart = Some "1"%string)).

(** [initFromUrlParams]: bind the goal of the query, copy the durations into
    the fields, initialise the timer and schedule the auto-start. *)
Definition initFromUrlParams (q : Query.t) (s : State) : State :=
  let params := getUrlParams q in
  let s :=
    match Params.goalId params with
    | Some g =>
        let s := set_goalSelect (Select.set_value (Some g) (goalSelect s)) s in
        updateCurrentGoalDisplay s
    | None => set_totalPomodoros 1 s
    end in
  let s :=
    if Params.duration params =? 0 then s
    else set_workMinutesInput
           (Input.set_value (pretty (Params.duration params)) (workMinutesInput s)) s in
  let s :=
    if Params.breakDuration params =? 0 then s
    else set_breakMinutesInput
           (Input.set_value (pretty (Params.breakDuration params)) (breakMinutesInput s)) s in
  let s := set_autoStartTimer (Params.autoStart params) s in
  let s := initTimer s in
  if autoStartTimer s then setTimeout 500 s else s.

(** [x || dflt] on a label: [null] and the empty string are falsy. *)
Definition labelOr (x : option string) (dflt : string) : string :=
  match x with
  | Some str => if truthy str then str else dflt
  | None => dflt
  end.

(** [{...session, startTime: new Date(session.startTime), ...}] with the
    label fallback of the caller. *)
Definition revive (dflt : string) (x : Stored.t) : Session.t :=
  Session.mk (Some (Stored.startTime x)) (Stored.endTime x) (Stored.duration x)
    (Stored.isWorkSession x) (Stored.goalId x)
    (Some (labelOr (Stored.goalText x) dflt))
    (Stored.pomodoroNumber x) (Stored.totalPomodoros x).

(** The filter callback of both loaders: the session began today. *)
Definition startedToday (offset now : Z) (session : Session.t) : bool :=
  match Session.startTime session with
  | Some t0 => startOfDay offset t0 =? startOfDay offset now
  | None => false
  end.

(** The identifier [allSessions], read by [loadSessions] and by
    [initTimerPage], has no declaration: neither timer.js nor any other
    script of the application binds it.  Evaluating it raises. *)
Definition allSessions : JsError + list Session.t :=
  inl (ReferenceError "allSessions").

(** [loadSessions]: the fallback to the cache of the user when the server
    gave no sessions. *)
Definition loadSessions (now : Z) (s : State) : State :=
  if truthy (userId s) then
    if decide (sessions s = []) then
      match localStorage s !! storageKey (userId s) with
      | Some savedSessions =>
          (* try *)
          let s := set_sessions (revive "Goal info not available" <$> savedSessions) s in
          match allSessions with
          | inr all =>
              set_sessions (filter (fun x => startedToday (utcOffset s) now x = true) all) s
          | inl e =>
              (* catch *)
              let s := set_console (console s ++ [ErrorLoadingSavedSessions e]) s in
              set_sessions [] s
          end
      | None => s
      end
    else s
  else s.

(** [availableGoals[option.value] = option.text], for an option whose value
    is not empty. *)
Definition addGoal (m : gmap GoalId string) (option : GoalOption.t) : gmap GoalId string :=
  match GoalOption.value option with
  | Some v => <[v := GoalOption.text option]> m
  | None => m
  end.

(** The object [availableGoals]: option value to option text, later options
    overwriting earlier ones with the same value. *)
Definition availableGoals (os : list GoalOption.t) : gmap GoalId string :=
  fold_left addGoal os ∅.

(** The callback of [sessions.forEach]: the label is overwritten when the
    goal id has a non-empty entry in [availableGoals]. *)
Definition relabel (goals : gmap GoalId string) (session : Session.t) : Session.t :=
  match Session.goalId session with
  | Some g =>
      match goals !! g with
      | Some label =>
          if truthy label then
            Session.mk (Session.startTime session) (Session.endTime session)
              (Session.duration session) (Session.isWorkSession session)
              (Session.goalId session) (Some label)
              (Session.pomodoroNumber session) (Session.totalPomodoros session)
          else session
      | None => session
      end
  | None => session
  end.

(** [matchGoalIdsWithDropdown]. *)
Definition matchGoalIdsWithDropdown (s : State) : State :=
  if decide (sessions s = []) then s
  else
    let goals := availableGoals (Select.options (goalSelect s)) in
    set_sessions (relabel goals <$> sessions s) s.

(** [initTimerPage]: [serverData] is the parsed [data-sessions] attribute of
    [#existing-sessions-data], [None] when the element is not on the page. *)
Definition initTimerPage (serverData : option (list Stored.t)) (q : Query.t)
    (now : Z) (s : State) : State :=
  let s :=
    match serverData with
    | Some ((_ :: _) as serverSessions) =>
        (* try *)
        let s := set_sessions (revive "No goal selected" <$> serverSessions) s in
        match allSessions with
        | inr all =>
            set_sessions (filter (fun x => startedToday (utcOffset s) now x = true) all) s
        | inl e =>
            (* catch *)
            set_console (console s ++ [ErrorParsingServerSessions e]) s
        end
    | _ => s
    end in
  let s := initFromUrlParams q s in
  let s := loadSessions now s in
  matchGoalIdsWithDropdown s.

(** ** Events *)

(** What can happen to a loaded page: the three buttons, a turn of the
    interval with handle [h], and a pending timeout [h] coming due.  The
    instant at which the event is served comes with it. *)
Inductive Event :=
  | Start (now : Z)
  | Pause
  | Reset
  | Tick (h : nat) (now : Z)
  | Timeout (h : nat) (now : Z).

(** The listener or callback an event runs. *)
Definition handle (s : State) (ev : Event) : State :=
  match ev with
  | Start now => startTimer now s
  | Pause => pauseTimer s
  | Reset => resetTimer s
  | Tick h now => tick h now s
  | Timeout h now => timeout h now s
  end.

(** A sequence of events, served in order. *)
Definition run (evs : list Event) (s : State) : State :=
  fold_left handle evs s.

(** The state of the script when it has been evaluated and before
    [DOMContentLoaded]: the initializers of the module variables.  [timeLeft]
    has none; [initTimer] assigns it before anything reads it. *)
Definition scriptLoaded (status : Status) (start pause : Button.t)
    (work break : Input.t) (goals : Select.t) (user : string)
    (storage : gmap string (list Stored.t)) (offset : Z) : State :=
  mkState None 0 false false true 25 5 0 None [] false 0 1
    status start pause work break goals user
    [] [] 0%nat storage [] [] offset.

(** * Vocabulary of the statements *)

(** What [||] treats as missing: [NaN] and zero. *)
Definition falsyNumber (n : option Z) : Prop :=
  n = None \/ n = Some 0.

(** The state in which a Work interval with a recorded start leaves
    [completeSession] for one of its two branches: the count incremented, the
    record appended and cached, the session sent. *)
Definition recorded (now : Z) (s : State) : State :=
  let s := set_currentPomodoroCount (currentPomodoroCount s + 1) s in
  let session := sessionRecord now s in
  let s := saveToLocalStorage (set_sessions (sessions s ++ [session]) s) in
  set_requests
    (requests s ++
     [PostPomodoro (Session.goalId session) (default 0 (Session.startTime session))
        now (Session.pomodoroNumber session) (Session.totalPomodoros session)])
    s.

(** ** Runs that stay within the target *)

(** The timer is idle in the Work phase and the target is already met:
    [startTimer] would open a Work interval beyond it. *)
Definition beyondTarget (s : State) : bool :=
  negb (isRunning s) && negb (isPaused s) && isWorkTime s
  && (totalPomodoros s <=? currentPomodoroCount s).

(** The event reaches [startTimer] in such a state. *)
Definition startsBeyondTarget (s : State) (ev : Event) : bool :=
  match ev with
  | Start _ => beyondTarget s
  | Timeout h _ => bool_decide (h ∈ (timeouts s).*1) && beyondTarget s
  | _ => false
  end.

(** No event of the run does. *)
Fixpoint withinTarget (s : State) (evs : list Event) : bool :=
  match evs with
  | [] => true
  | ev :: rest => negb (startsBeyondTarget s ev) && withinTarget (handle s ev) rest
  end.

(** What such runs maintain: the count is within the target; a running timer
    is not paused; a live interval is the one [timer] holds, and the timer is
    running; a Work interval in progress has a pomodoro left to earn; an
    interval in progress has a recorded start. *)
Definition Inv (s : State) : Prop :=
  currentPomodoroCount s <= totalPomodoros s /\
  0 <= totalPomodoros s /\
  (isRunning s = true -> isPaused s = false) /\
  (forall h, h ∈ intervals s -> isRunning s = true /\ timer s = Some h) /\
  (isWorkTime s = true -> isRunning s = true \/ isPaused s = true ->
   currentPomodoroCount s < totalPomodoros s) /\
  (isRunning s = true \/ isPaused s = true -> is_Some (startTime s)).

(** ** Concrete pages and runs *)

Module Demo.
Local Open Scope string_scope.

(** A goal selector with the placeholder and one three-pomodoro goal. *)
Definition goals : Select.t :=
  Select.mk
    [GoalOption.mk None "Select a goal" None;
     GoalOption.mk (Some 7%positive) "Write report" (Some "3")]
    0 false.

(** The script just evaluated on the page of user 42, nothing cached, local
    time on UTC. *)
Definition loaded : State :=
  scriptLoaded StatusAsRendered (Button.mk false "Start") (Button.mk true "Pause")
    (Input.mk "25" false) (Input.mk "5" false) goals "42" ∅ 0.

(** Page load with one-minute intervals and no goal. *)
Definition unbound : State :=
  initTimerPage None (Query.mk None (Some "1") (Some "1") None) 1000 loaded.

(** Page load with one-minute intervals for goal 7. *)
Definition bound : State :=
  initTimerPage None (Query.mk (Some 7%positive) (Some "1") (Some "1") None) 1000 loaded.

(** [n] turns of interval [h], one second apart, the first at [t0 + 1000]. *)
Definition ticks (h : nat) (t0 : Z) (n : nat) : list Event :=
  (fun i => Tick h (t0 + 1000 * Z.of_nat i)) <$> seq 1 n.

Definition running : State := run [Start 2000] unbound.
Definition paused : State := run [Start 2000; Tick 0%nat 3000; Pause] unbound.
Definition boundRunning : State := run [Start 2000] bound.

(** One Work interval from start to completion. *)
Definition oneInterval : list Event :=
  Start 2000 :: ticks 0 2000 60.

(** Work #1, the break, and the timeout that opens Work #2. *)
Definition toSecondInterval : list Event :=
  Start 2000 :: ticks 0 2000 60 ++
  Timeout 1 62300 :: ticks 2 62300 60 ++
  [Timeout 3 123800].

(** The whole run of the three-pomodoro goal. *)
Definition threeIntervals : list Event :=
  toSecondInterval ++ ticks 4 123800 60 ++
  Timeout 5 184100 :: ticks 6 184100 60 ++
  Timeout 7 245600 :: ticks 8 245600 60.
End Demo.

(** A page whose log holds a session of goal 9, which the selector no longer
    lists, and a session of goal 7, which it lists as "Write report". *)
Module ScenarioD.
Local Open Scope string_scope.

Definition kept : Session.t :=
  Session.mk (Some 2000) 62000 (Some 60) true (Some 9%positive)
    (Some "Plan the week") 1 1.

Definition renamed : Session.t :=
  Session.mk (Some 70000) 130000 (Some 60) true (Some 7%positive)
    (Some "Write draft") 1 3.

Definition page : State :=
  set_sessions [kept; renamed] Demo.unbound.
End ScenarioD.

(** A Work interval completed at 00:01:02, then the page loaded again eight
    seconds later with the same [localStorage] and no server sessions. *)
Module Reload.
Local Open Scope string_scope.

Definition saved : State :=
  run Demo.oneInterval Demo.unbound.

Definition reloaded : State :=
  initTimerPage None (Query.mk None None None None) 70000
    (scriptLoaded StatusAsRendered (Button.mk false "Start") (Button.mk true "Pause")
       (Input.mk "25" false) (Input.mk "5" false) Demo.goals "42"
       (localStorage saved) 0).

(** The record of that interval, in memory and in the cache. *)
Definition record : Session.t :=
  Session.mk (Some 2000) 62000 (Some 60) true None None 1 1.

Definition cached : Stored.t :=
  Stored.mk 2000 62000 (Some 60) true None None 1 1.
End Reload.

(** * The rest of the page *)

(** ** Everything that can happen to the page *)

(** Besides the timer events: the user edits a duration field or picks an
    option of the goal selector (both fire [change]), and the Goal Store
    answers a completion call. *)
Inductive Action :=
  | TimerEvent (ev : Event)
  | ChangeWorkMinutes (text : string)
  | ChangeBreakMinutes (text : string)
  | ChangeGoal (index : Z)
  | GoalCompleteResponse (goalId : GoalId) (success : bool).

(** The listeners [initTimerPage] attaches: [initTimer] on both duration
    fields, [updateCurrentGoalDisplay] on the goal selector; the browser has
    updated the element by the time the listener runs. *)
Definition perform (s : State) (a : Action) : State :=
  match a with
  | TimerEvent ev => handle s ev
  | ChangeWorkMinutes text =>
      initTimer (set_workMinutesInput (Input.set_value text (workMinutesInput s)) s)
  | ChangeBreakMinutes text =>
      initTimer (set_breakMinutesInput (Input.set_value text (breakMinutesInput s)) s)
  | ChangeGoal index =>
      let sel := goalSelect s in
      updateCurrentGoalDisplay
        (set_goalSelect (Select.mk (Select.options sel) index (Select.disabled sel)) s)
  | GoalCompleteResponse goalId success => markGoalAsCompleted_then goalId success s
  end.

Definition performAll (acts : list Action) (s : State) : State :=
  fold_left perform acts s.

(** ** What the page shows *)

(** [str.padStart(2, '0')]. *)
Definition padStart2 (str : string) : string :=
  match String.length str with
  | 0%nat => "00"
  | 1%nat => String "0" str
  | _ => str
  end.

(** The text [updateDisplay] writes: [Math.floor(timeLeft / 60)] and
    [timeLeft % 60], each padded to two characters.  [%] takes the sign of
    the dividend. *)
Definition timeDisplay (timeLeft : Z) : string :=
  let minutes := timeLeft / 60 in
  let seconds := Z.rem timeLeft 60 in
  (padStart2 (pretty minutes) ++ ":" ++ padStart2 (pretty seconds))%string.

(** The minutes [updateProgressDisplay] announces as remaining: the work of
    the pomodoros still to do and the breaks between them. *)
Definition totalRemainingMinutes (s : State) : Z :=
  let remainingFullPomodoros := totalPomodoros s - currentPomodoroCount s in
  let remainingWorkTime := remainingFullPomodoros * workMinutes s in
  let remainingBreakTime :=
    if 0 <? remainingFullPomodoros - 1
    then (remainingFullPomodoros - 1) * breakMinutes s
    else 0 in
  remainingWorkTime + remainingBreakTime.

(** The text after "Remaining: ". *)
Definition remainingTimeDisplay (s : State) : string :=
  let total := totalRemainingMinutes s in
  if 60 <=? total
  then (pretty (total / 60) ++ "h " ++ pretty (Z.rem total 60) ++ "m")%string
  else (pretty total ++ "m")%string.

(** ** Vocabulary of the further statements *)

(** At most one interval is live; it is the one [timer] holds, and the timer
    is running. *)
Definition oneCountdown (s : State) : Prop :=
  intervals s = [] \/
  (isRunning s = true /\ exists h, intervals s = [h] /\ timer s = Some h).

(** Every record of the log has a start. *)
Definition allStarted (l : list Session.t) : Prop :=
  Forall (fun x => is_Some (Session.startTime x)) l.

(** The timer has a recorded start whenever an interval is under way. *)
Definition started (s : State) : Prop :=
  is_Some (startTime s) \/
  (isRunning s = false /\ isPaused s = false /\ intervals s = []).

(** The request [saveSession] sends for a record. *)
Definition submitted (x : Session.t) (r : Request) : Prop :=
  exists t0,
    Session.startTime x = Some t0 /\
    r = PostPomodoro (Session.goalId x) t0 (Session.endTime x)
          (Session.pomodoroNumber x) (Session.totalPomodoros x).

Definition isPostPomodoro (r : Request) : bool :=
  match r with
  | PostPomodoro _ _ _ _ _ => true
  | PostGoalComplete _ => false
  end.

(** A record as [revive] returns it: the label replaced by the fallback
    when it is [null] or empty. *)
Definition withLabelOr (dflt : string) (x : Session.t) : Session.t :=
  Session.mk (Session.startTime x) (Session.endTime x) (Session.duration x)
    (Session.isWorkSession x) (Session.goalId x)
    (Some (labelOr (Session.goalText x) dflt))
    (Session.pomodoroNumber x) (Session.totalPomodoros x).

(** The instants of [n] consecutive turns of an interval. *)
Definition turns (h : nat) (nows : list Z) : list Event :=
  Tick h <$> nows.


(** Every display of a countdown below 100 minutes reads back to it. *)
Definition readsBack (timeLeft : Z) : bool :=
  let text := timeDisplay timeLeft in
  (String.length text =? 5)%nat
  && bool_decide (String.get 2 text = Some ":"%char)
  && bool_decide (parseInt (substring 0 2 text) = Some (timeLeft / 60))
  && bool_decide (parseInt (substring 3 2 text) = Some (timeLeft mod 60)).

(** The cache entry of the user is the serialized log. *)
Definition cacheCurrent (s : State) : Prop :=
  exists items,
    serialize (sessions s) = inr items /\
    localStorage s !! storageKey (userId s) = Some items.

(** The Session Store calls among the requests. *)
Definition postPomodoros (rs : list Request) : list Request :=
  filter (fun r => isPostPomodoro r = true) rs.

(** What one action does to the log, the cache, the Session Store calls and
    the console: nothing, or one record appended, cached and submitted. *)
Definition quietStep (s s' : State) : Prop :=
  sessions s' = sessions s /\
  localStorage s' = localStorage s /\
  postPomodoros (requests s') = postPomodoros (requests s).

Definition recordingStep (s s' : State) : Prop :=
  exists x r,
    sessions s' = sessions s ++ [x] /\
    submitted x r /\
    postPomodoros (requests s') = postPomodoros (requests s) ++ [r] /\
    cacheCurrent s'.

(** * Properties *)


(** ** The start button *)

(** C3. [startTimer] on a running timer returns the state it was given: the
    time left, the start of the session, every other variable, the page and
    the set of live intervals are the same, so no second countdown exists. *)
Theorem startTimer_running_noop (now : Z) (s : State) :
  isRunning s = true -> startTimer now s = s.
Proof.
  intros Hrun. unfold startTimer. now rewrite Hrun.
Qed.

Lemma startTimer_running_noop_witness :
  isRunning Demo.running = true /\ startTimer 9000 Demo.running = Demo.running.
Proof.
  split; [reflexivity | apply (startTimer_running_noop 9000 Demo.running); reflexivity].
Defined.

(** C4. From Idle (neither running nor paused) [startTimer] records the
    current instant as the start of the session and runs; from Paused it
    clears the pause flag and runs, and the recorded start is the one it had.
    Either way one new interval is live. *)
Theorem startTimer_idle_paused (now : Z) (s : State) :
  isRunning s = false ->
  (isPaused s = false ->
     startTime (startTimer now s) = Some now /\
     isRunning (startTimer now s) = true /\
     isPaused (startTimer now s) = false) /\
  (isPaused s = true ->
     startTime (startTimer now s) = startTime s /\
     isRunning (startTimer now s) = true /\
     isPaused (startTimer now s) = false) /\
  intervals (startTimer now s) = intervals s ++ [nextHandle s] /\
  timer (startTimer now s) = Some (nextHandle s).
Proof.
  intros Hrun. unfold startTimer. rewrite Hrun.
  destruct (isPaused s) eqn:Hp; cbn; repeat split; intros; congruence.
Qed.

Lemma startTimer_idle_paused_witness :
  isRunning Demo.unbound = false /\ isPaused Demo.unbound = false /\
  startTime (startTimer 2000 Demo.unbound) = Some 2000 /\
  isRunning Demo.paused = false /\ isPaused Demo.paused = true /\
  startTime (startTimer 7000 Demo.paused) = Some 2000.
Proof.
  pose proof (startTimer_idle_paused 2000 Demo.unbound eq_refl) as (Hidle & _).
  pose proof (startTimer_idle_paused 7000 Demo.paused eq_refl) as (_ & Hpaused & _).
  split; [reflexivity |]. split; [reflexivity |].
  split; [apply Hidle; reflexivity |].
  split; [reflexivity |]. split; [reflexivity |].
  apply Hpaused; reflexivity.
Defined.

(** ** Reset *)

(** C10. [resetTimer] leaves the [sessions] array as it found it, the same
    records in the same order, while it brings the timer back to an idle
    Work phase with a zero pomodoro count and a reloaded countdown. *)
Theorem resetTimer_keeps_sessions (s : State) :
  sessions (resetTimer s) = sessions s /\
  isRunning (resetTimer s) = false /\
  isPaused (resetTimer s) = false /\
  isWorkTime (resetTimer s) = true /\
  currentPomodoroCount (resetTimer s) = 0 /\
  timeLeft (resetTimer s) = workMinutes (resetTimer s) * 60.
Proof.
  unfold resetTimer, initTimer. cbn.
  destruct (timer s); cbn; repeat split; reflexivity.
Qed.

(** ** Duration fallbacks *)

Lemma orDefault_falsy (n : option Z) (dflt : Z) :
  falsyNumber n -> orDefault n dflt = dflt.
Proof. intros [-> | ->]; reflexivity. Qed.

(** C9. A work or break field whose text parses to [NaN] or to zero makes
    [initTimer] take 25 and 5 minutes, and the console receives nothing; the
    [duration] and [breakDuration] query parameters fall back the same way,
    and the whole bootstrap then starts from 25 and 5 minutes. *)
Theorem duration_defaults (s : State) (q : Query.t) :
  (falsyNumber (parseInt (Input.value (workMinutesInput s))) ->
     workMinutes (initTimer s) = 25 /\ timeLeft (initTimer s) = 25 * 60) /\
  (falsyNumber (parseInt (Input.value (breakMinutesInput s))) ->
     breakMinutes (initTimer s) = 5) /\
  console (initTimer s) = console s /\
  (falsyNumber (parseInt (toStringNullable (Query.duration q))) ->
     Params.duration (getUrlParams q) = 25 /\
     workMinutes (initFromUrlParams q s) = 25) /\
  (falsyNumber (parseInt (toStringNullable (Query.breakDuration q))) ->
     Params.breakDuration (getUrlParams q) = 5 /\
     breakMinutes (initFromUrlParams q s) = 5).
Proof.
  split; [| split; [| split; [| split]]].
  - intros Hw. unfold initTimer; cbn. now rewrite orDefault_falsy.
  - intros Hb. unfold initTimer; cbn. now rewrite orDefault_falsy.
  - reflexivity.
  - intros Hd. split.
    + cbn. now rewrite orDefault_falsy.
    + unfold initFromUrlParams, getUrlParams; cbn.
      rewrite (orDefault_falsy _ 25) by assumption. cbn.
      destruct (Query.goalId q); cbn;
        destruct (orDefault _ 5 =? 0); cbn;
        destruct (_ || _); vm_compute; reflexivity.
  - intros Hd. split.
    + cbn. now rewrite orDefault_falsy.
    + unfold initFromUrlParams, getUrlParams; cbn.
      rewrite (orDefault_falsy _ 5) by assumption. cbn.
      destruct (orDefault _ 25 =? 0); cbn;
        destruct (Query.goalId q); cbn;
        destruct (_ || _); vm_compute; reflexivity.
Qed.

Lemma duration_defaults_witness :
  workMinutes (initTimer (set_workMinutesInput (Input.mk "abc" false) Demo.loaded)) = 25 /\
  breakMinutes (initTimer (set_breakMinutesInput (Input.mk "0" false) Demo.loaded)) = 5 /\
  Params.duration (getUrlParams (Query.mk None (Some "soon"%string) None None)) = 25 /\
  Params.breakDuration (getUrlParams (Query.mk None (Some "soon"%string) None None)) = 5.
Proof.
  pose proof (duration_defaults
                (set_workMinutesInput (Input.mk "abc" false) Demo.loaded)
                (Query.mk None (Some "soon"%string) None None))
    as (Hwork & _ & _ & Hduration & Hbreak).
  pose proof (duration_defaults
                (set_breakMinutesInput (Input.mk "0" false) Demo.loaded)
                (Query.mk None None None None))
    as (_ & Hzero & _).
  split; [apply Hwork; left; reflexivity |].
  split; [apply Hzero; right; reflexivity |].
  split; [apply Hduration; left; reflexivity |].
  apply Hbreak; left; reflexivity.
Defined.

(** ** Completion of an interval *)

(** [saveToLocalStorage] touches the cache and the console, nothing else. *)
Lemma saveToLocalStorage_frame (s : State) :
  saveToLocalStorage s =
  set_localStorage (localStorage (saveToLocalStorage s))
    (set_console (console (saveToLocalStorage s)) s).
Proof.
  unfold saveToLocalStorage.
  destruct (serialize (sessions s)); destruct s; reflexivity.
Qed.

Lemma completeSession_work (now : Z) (s : State) (t0 : Z) :
  isWorkTime s = true ->
  startTime s = Some t0 ->
  completeSession now s =
  if totalPomodoros s <=? currentPomodoroCount s + 1
  then taskCompleted (Select.value (goalSelect s)) (recorded now s)
  else switchToBreak (recorded now s).
Proof.
  intros Hwork Hstart. unfold completeSession, recorded. rewrite Hwork. cbn zeta.
  set (s1 := set_sessions _ _).
  unfold saveSession.
  replace (Session.startTime (sessionRecord now _)) with (Some t0)
    by (cbn; now rewrite Hstart).
  cbn [default].
  rewrite (saveToLocalStorage_frame s1). reflexivity.
Qed.

Lemma completeSession_break (now : Z) (s : State) :
  isWorkTime s = false -> completeSession now s = breakCompleted s.
Proof. intros Hbreak. unfold completeSession. now rewrite Hbreak. Qed.

Lemma recorded_frame (now : Z) (s : State) :
  sessions (recorded now s)
    = sessions s ++
      [sessionRecord now (set_currentPomodoroCount (currentPomodoroCount s + 1) s)] /\
  currentPomodoroCount (recorded now s) = currentPomodoroCount s + 1 /\
  totalPomodoros (recorded now s) = totalPomodoros s /\
  isRunning (recorded now s) = isRunning s /\
  isPaused (recorded now s) = isPaused s /\
  isWorkTime (recorded now s) = isWorkTime s /\
  startTime (recorded now s) = startTime s /\
  workMinutes (recorded now s) = workMinutes s /\
  breakMinutes (recorded now s) = breakMinutes s /\
  timer (recorded now s) = timer s /\
  intervals (recorded now s) = intervals s /\
  timeouts (recorded now s) = timeouts s /\
  nextHandle (recorded now s) = nextHandle s /\
  goalSelect (recorded now s) = goalSelect s /\
  requests (recorded now s)
    = requests s ++
      [PostPomodoro (Select.value (goalSelect s)) (default 0 (startTime s)) now
         (currentPomodoroCount s + 1) (totalPomodoros s)].
Proof.
  unfold recorded. cbn zeta.
  set (s1 := set_sessions _ _).
  rewrite (saveToLocalStorage_frame s1). cbn.
  repeat split; reflexivity.
Qed.

Lemma clearInterval_fields (h : option nat) (s : State) :
  clearInterval h s =
  set_intervals (intervals (clearInterval h s)) s.
Proof. destruct h; destruct s; reflexivity. Qed.

(** C5. A Work interval whose completion brings the pomodoro count to the
    target ends the run: the phase is Work and the timer is not running, the
    count stays at the target, the start button, both duration fields and the
    goal selector are enabled, no timeout is scheduled, and the Goal Store
    receives a completion call exactly when a goal is bound.  Unbinding the
    goal sets the target to 1 and the count to 0, so with no goal bound the
    first Work interval already ends the run, and only the session is sent. *)
Theorem completeSession_terminal (now : Z) (s : State) (t0 : Z) :
  isWorkTime s = true ->
  startTime s = Some t0 ->
  currentPomodoroCount s + 1 = totalPomodoros s ->
  let s' := completeSession now s in
  isWorkTime s' = true /\
  isRunning s' = false /\
  isPaused s' = isPaused s /\
  timeLeft s' = workMinutes s * 60 /\
  currentPomodoroCount s' = currentPomodoroCount s + 1 /\
  currentPomodoroCount s' = totalPomodoros s' /\
  statusText s' = TaskCompleted /\
  Button.disabled (startBtn s') = false /\
  Input.disabled (workMinutesInput s') = false /\
  Input.disabled (breakMinutesInput s') = false /\
  Select.disabled (goalSelect s') = false /\
  timeouts s' = timeouts s /\
  requests s' =
    requests s ++
    PostPomodoro (Select.value (goalSelect s)) t0 now
      (currentPomodoroCount s + 1) (totalPomodoros s)
    :: match Select.value (goalSelect s) with
       | Some g => [PostGoalComplete g]
       | None => []
       end /\
  (Select.value (goalSelect s) = None ->
     totalPomodoros (updateCurrentGoalDisplay s) = 1 /\
     currentPomodoroCount (updateCurrentGoalDisplay s) = 0).
Proof.
  intros Hwork Hstart Hlast s'. subst s'.
  rewrite (completeSession_work now s t0 Hwork Hstart).
  replace (totalPomodoros s <=? currentPomodoroCount s + 1) with true
    by (symmetry; apply Z.leb_le; lia).
  pose proof (recorded_frame now s) as
    (_ & Hcount & Htotal & _ & Hpaused & _ & _ & Hminutes & _ & _ & _ & Htimeouts
       & _ & _ & Hrequests).
  remember (recorded now s) as r eqn:Hr. clear Hr.
  rewrite Hstart in Hrequests. cbn in Hrequests.
  unfold taskCompleted.
  destruct (Select.value (goalSelect s)) as [g |] eqn:Hbound; cbn;
    rewrite ?Hcount, ?Htotal, ?Hpaused, ?Hminutes, ?Htimeouts, ?Hrequests,
      <- ?app_assoc; cbn.
  - repeat split; try reflexivity; try lia; discriminate.
  - repeat split; try reflexivity; try lia;
      unfold updateCurrentGoalDisplay; rewrite Hbound; reflexivity.
Qed.

Lemma completeSession_terminal_witness :
  isWorkTime Demo.running = true /\
  startTime Demo.running = Some 2000 /\
  currentPomodoroCount Demo.running + 1 = totalPomodoros Demo.running /\
  isRunning (completeSession 62000 Demo.running) = false /\
  timeouts (completeSession 62000 Demo.running) = [] /\
  requests (completeSession 62000 Demo.running) = [PostPomodoro None 2000 62000 1 1].
Proof.
  pose proof (completeSession_terminal 62000 Demo.running 2000 eq_refl eq_refl eq_refl)
    as (_ & Hidle & _ & _ & _ & _ & _ & _ & _ & _ & _ & Htimeouts & Hrequests & _).
  split; [reflexivity |]. split; [reflexivity |]. split; [reflexivity |].
  split; [exact Hidle |]. split; [exact Htimeouts | exact Hrequests].
Defined.

(** Scenario C, run from page load: no goal bound, one Work interval. *)
Example no_goal_single_interval :
  let s := run Demo.oneInterval Demo.unbound in
  totalPomodoros Demo.unbound = 1 /\
  statusText s = TaskCompleted /\
  isRunning s = false /\
  currentPomodoroCount s = 1 /\
  timeouts s = [] /\
  intervals s = [] /\
  requests s = [PostPomodoro None 2000 62000 1 1].
Proof. vm_compute. repeat split; reflexivity. Qed.

(** C6. The completion of a Work interval appends one record to [sessions]:
    it spans the recorded start and the completion instant, its duration is
    their difference in whole seconds, and it carries the id and the label of
    the selected goal, the label being [null] when the selector has no
    selected option or no goal is bound.  The completion of a Break interval
    leaves [sessions] as it was. *)
Theorem completeSession_records (now : Z) (s : State) (t0 : Z) :
  startTime s = Some t0 ->
  (isWorkTime s = true ->
     exists r,
       sessions (completeSession now s) = sessions s ++ [r] /\
       Session.startTime r = Some t0 /\
       Session.endTime r = now /\
       Session.duration r = Some ((now - t0) / 1000) /\
       Session.isWorkSession r = true /\
       Session.goalId r = Select.value (goalSelect s) /\
       (forall o g,
          Select.selectedOption (goalSelect s) = Some o ->
          GoalOption.value o = Some g ->
          Session.goalId r = Some g /\
          Session.goalText r = Some (GoalOption.text o)) /\
       (Select.selectedOption (goalSelect s) = None -> Session.goalText r = None) /\
       (Select.value (goalSelect s) = None -> Session.goalText r = None) /\
       Session.pomodoroNumber r = currentPomodoroCount s + 1 /\
       Session.totalPomodoros r = totalPomodoros s) /\
  (isWorkTime s = false ->
     sessions (completeSession now s) = sessions s).
Proof.
  intros Hstart. split.
  - intros Hwork.
    exists (sessionRecord now (set_currentPomodoroCount (currentPomodoroCount s + 1) s)).
    split.
    + rewrite (completeSession_work now s t0 Hwork Hstart).
      pose proof (recorded_frame now s) as (Hsessions & _).
      remember (recorded now s) as r eqn:Hr. clear Hr.
      destruct (_ <=? _).
      * unfold taskCompleted.
        destruct (Select.value (goalSelect s)); cbn; exact Hsessions.
      * unfold switchToBreak. cbn zeta. unfold setTimeout.
        rewrite clearInterval_fields. cbn. exact Hsessions.
    + unfold sessionRecord, selectedGoalText, Select.value. cbn. rewrite Hstart. cbn.
      split; [reflexivity |]. split; [reflexivity |]. split; [reflexivity |].
      split; [reflexivity |]. split; [reflexivity |].
      split; [| split; [| split; [| split; reflexivity]]].
      * intros o g Hsel Hval. rewrite Hsel, Hval. split; [reflexivity |].
        unfold Select.selectedOption in Hsel.
        destruct (0 <=? Select.selectedIndex (goalSelect s)); [reflexivity | discriminate].
      * intros Hsel. now rewrite Hsel.
      * intros Hval. now rewrite Hval.
  - intros Hbreak. rewrite (completeSession_break now s Hbreak).
    unfold breakCompleted. cbn. destruct (_ <? _); reflexivity.
Qed.

Lemma completeSession_records_witness :
  startTime Demo.running = Some 2000 /\
  exists r,
    sessions (completeSession 62500 Demo.running) = sessions Demo.running ++ [r] /\
    Session.duration r = Some 60.
Proof.
  split; [reflexivity |].
  destruct (completeSession_records 62500 Demo.running 2000 eq_refl) as (Hwork & _).
  destruct (Hwork eq_refl) as (r & Hsessions & _ & _ & Hduration & _).
  exists r. split; [exact Hsessions | exact Hduration].
Defined.

(** ** Auto-advance *)

Lemma startTimer_stopped (now : Z) (s : State) :
  isRunning s = false ->
  isRunning (startTimer now s) = true /\
  isWorkTime (startTimer now s) = isWorkTime s /\
  timeLeft (startTimer now s) = timeLeft s /\
  currentPomodoroCount (startTimer now s) = currentPomodoroCount s /\
  totalPomodoros (startTimer now s) = totalPomodoros s /\
  intervals (startTimer now s) = intervals s ++ [nextHandle s].
Proof.
  intros Hstopped. unfold startTimer. rewrite Hstopped.
  destruct (isPaused s); cbn; repeat split; reflexivity.
Qed.

(** C7. An intermediate Work completion (the incremented count is still
    below the target) turns the phase to Break, reloads the countdown from
    the break length and leaves a 300 ms timeout that starts it; a Break
    completion with pomodoros remaining turns the phase to Work, reloads the
    countdown from the work length and leaves a 1500 ms timeout that starts
    it; 300 is less than 1500.  On a page bound to a three-pomodoro goal,
    Work #1, the break and the second timeout lead to a running Work
    interval with one pomodoro done out of three. *)
Theorem completeSession_auto_advance (now later : Z) (s : State) :
  (forall t0,
     startTime s = Some t0 ->
     isWorkTime s = true ->
     currentPomodoroCount s + 1 < totalPomodoros s ->
     let s' := completeSession now s in
     let s'' := timeout (nextHandle s) later s' in
     isWorkTime s' = false /\
     timeLeft s' = breakMinutes s * 60 /\
     isRunning s' = false /\
     currentPomodoroCount s' = currentPomodoroCount s + 1 /\
     timeouts s' = timeouts s ++ [(nextHandle s, 300)] /\
     isRunning s'' = true /\
     isWorkTime s'' = false /\
     timeLeft s'' = breakMinutes s * 60 /\
     intervals s'' = intervals s' ++ [nextHandle s']) /\
  (isWorkTime s = false ->
   currentPomodoroCount s < totalPomodoros s ->
   let s' := completeSession now s in
   let s'' := timeout (nextHandle s) later s' in
   isWorkTime s' = true /\
   timeLeft s' = workMinutes s * 60 /\
   isRunning s' = false /\
   currentPomodoroCount s' = currentPomodoroCount s /\
   timeouts s' = timeouts s ++ [(nextHandle s, 1500)] /\
   isRunning s'' = true /\
   isWorkTime s'' = true /\
   timeLeft s'' = workMinutes s * 60 /\
   intervals s'' = intervals s' ++ [nextHandle s']) /\
  300 < 1500 /\
  (let final := run Demo.toSecondInterval Demo.bound in
   isWorkTime final = true /\
   isRunning final = true /\
   timeLeft final = workMinutes final * 60 /\
   currentPomodoroCount final = 1 /\
   totalPomodoros final = 3).
Proof.
  split; [| split; [| split; [lia | vm_compute; repeat split; reflexivity]]].
  - intros t0 Hstart Hwork Hmore s' s''.
    assert (Hs' : isWorkTime s' = false /\ timeLeft s' = breakMinutes s * 60 /\
                  isRunning s' = false /\
                  currentPomodoroCount s' = currentPomodoroCount s + 1 /\
                  timeouts s' = timeouts s ++ [(nextHandle s, 300)]).
    { subst s'. rewrite (completeSession_work now s t0 Hwork Hstart).
      replace (totalPomodoros s <=? currentPomodoroCount s + 1) with false
        by (symmetry; apply Z.leb_gt; lia).
      pose proof (recorded_frame now s) as
        (_ & Hcount & _ & _ & _ & _ & _ & _ & Hminutes & _ & _ & Htimeouts & Hnext & _).
      remember (recorded now s) as r eqn:Hr. clear Hr.
      unfold switchToBreak. cbn zeta. unfold setTimeout.
      rewrite clearInterval_fields. cbn.
      rewrite Hcount, Hminutes, Htimeouts, Hnext. repeat split; reflexivity. }
    destruct Hs' as (Hphase & Hleft & Hstopped & Hcount & Htimeouts).
    repeat split; try assumption; subst s''; unfold timeout;
      (rewrite decide_True by (rewrite Htimeouts, fmap_app; set_solver));
      match goal with
      | |- context [startTimer later ?x] =>
          destruct (startTimer_stopped later x Hstopped)
            as (Hrun & Hkind & Htime & _ & _ & Hintervals)
      end; cbn in *; congruence.
  - intros Hbreak Hmore s' s''.
    assert (Hs' : isWorkTime s' = true /\ timeLeft s' = workMinutes s * 60 /\
                  isRunning s' = false /\
                  currentPomodoroCount s' = currentPomodoroCount s /\
                  timeouts s' = timeouts s ++ [(nextHandle s, 1500)]).
    { subst s'. rewrite (completeSession_break now s Hbreak).
      unfold breakCompleted. cbn.
      replace (currentPomodoroCount s <? totalPomodoros s) with true
        by (symmetry; apply Z.ltb_lt; lia).
      cbn. repeat split; reflexivity. }
    destruct Hs' as (Hphase & Hleft & Hstopped & Hcount & Htimeouts).
    repeat split; try assumption; subst s''; unfold timeout;
      (rewrite decide_True by (rewrite Htimeouts, fmap_app; set_solver));
      match goal with
      | |- context [startTimer later ?x] =>
          destruct (startTimer_stopped later x Hstopped)
            as (Hrun & Hkind & Htime & _ & _ & Hintervals)
      end; cbn in *; congruence.
Qed.

Lemma completeSession_auto_advance_witness :
  let s := Demo.boundRunning in
  startTime s = Some 2000 /\
  isWorkTime s = true /\
  currentPomodoroCount s + 1 < totalPomodoros s /\
  isWorkTime (completeSession 62000 s) = false /\
  timeouts (completeSession 62000 s) = [(1%nat, 300)] /\
  isRunning (timeout 1 62300 (completeSession 62000 s)) = true.
Proof.
  cbv zeta.
  destruct (completeSession_auto_advance 62000 62300 Demo.boundRunning) as (Hwork & _).
  destruct (Hwork 2000 eq_refl eq_refl eq_refl)
    as (Hphase & _ & _ & _ & Htimeouts & Hrun & _).
  split; [reflexivity |]. split; [reflexivity |]. split; [reflexivity |].
  split; [exact Hphase |]. split; [exact Htimeouts | exact Hrun].
Defined.

(** ** Reconciliation with the goal selector *)

Lemma availableGoals_fold (os : list GoalOption.t) (m : gmap GoalId string)
    (g : GoalId) (label : string) :
  fold_left addGoal os m !! g = Some label ->
  m !! g = Some label \/
  exists o, o ∈ os /\ GoalOption.value o = Some g /\ GoalOption.text o = label.
Proof.
  revert m. induction os as [| o os IH]; intros m Hlookup; cbn in Hlookup.
  - now left.
  - destruct (IH _ Hlookup) as [Hm | (o' & Hin & Hval & Htext)].
    + unfold addGoal in Hm. destruct (GoalOption.value o) as [v |] eqn:Hv.
      * destruct (decide (v = g)) as [-> | Hne].
        -- rewrite lookup_insert_eq in Hm. injection Hm as Hm.
           right. exists o. split; [apply list_elem_of_here | now split].
        -- rewrite lookup_insert_ne in Hm by assumption. now left.
      * now left.
    + right. exists o'. split; [now apply list_elem_of_further | now split].
Qed.

(** Every entry of [availableGoals] comes from an option of the selector. *)
Lemma availableGoals_lookup (os : list GoalOption.t) (g : GoalId) (label : string) :
  availableGoals os !! g = Some label ->
  exists o, o ∈ os /\ GoalOption.value o = Some g /\ GoalOption.text o = label.
Proof.
  intros Hlookup.
  destruct (availableGoals_fold os ∅ g label Hlookup) as [Hempty | Hfound].
  - rewrite lookup_empty in Hempty. discriminate.
  - exact Hfound.
Qed.

(** C8. [matchGoalIdsWithDropdown] keeps every session in its place and
    changes at most its label.  A label that changed is the text of an option
    of the goal selector whose value is the session's goal id; a session with
    no goal id, or whose goal id is the value of no option, comes out exactly
    as it went in. *)
Theorem matchGoalIds_keeps_labels (s : State) (i : nat) (x : Session.t) :
  sessions s !! i = Some x ->
  exists y,
    sessions (matchGoalIdsWithDropdown s) !! i = Some y /\
    length (sessions (matchGoalIdsWithDropdown s)) = length (sessions s) /\
    Session.goalId y = Session.goalId x /\
    Session.startTime y = Session.startTime x /\
    Session.endTime y = Session.endTime x /\
    Session.duration y = Session.duration x /\
    Session.pomodoroNumber y = Session.pomodoroNumber x /\
    Session.totalPomodoros y = Session.totalPomodoros x /\
    (Session.goalText y <> Session.goalText x ->
       exists g o,
         Session.goalId x = Some g /\
         o ∈ Select.options (goalSelect s) /\
         GoalOption.value o = Some g /\
         Session.goalText y = Some (GoalOption.text o)) /\
    (Session.goalId x = None \/
     (forall o, o ∈ Select.options (goalSelect s) ->
                GoalOption.value o <> Session.goalId x) ->
     y = x).
Proof.
  intros Hx. unfold matchGoalIdsWithDropdown.
  destruct (decide (sessions s = [])) as [Hnil | _].
  { rewrite Hnil in Hx. discriminate. }
  cbn. set (goals := availableGoals _).
  exists (relabel goals x).
  split; [now rewrite list_lookup_fmap, Hx |].
  split; [apply length_fmap |].
  unfold relabel.
  destruct (Session.goalId x) as [g |] eqn:Hid.
  - destruct (goals !! g) as [label |] eqn:Hlabel.
    + destruct (availableGoals_lookup _ _ _ Hlabel) as (o & Hin & Hval & Htext).
      destruct (truthy label); cbn.
      * repeat split; try reflexivity; try assumption.
        -- intros _. exists g, o. rewrite Htext. now repeat split.
        -- intros [Hnone | Habsent]; [discriminate |].
           exfalso. now apply (Habsent o Hin).
      * repeat split; try reflexivity; try assumption. intros Hchanged. now destruct Hchanged.
    + repeat split; try reflexivity; try assumption. intros Hchanged. now destruct Hchanged.
  - repeat split; try reflexivity; try assumption. intros Hchanged. now destruct Hchanged.
Qed.

Lemma matchGoalIds_keeps_labels_witness :
  sessions ScenarioD.page !! 0%nat = Some ScenarioD.kept /\
  sessions (matchGoalIdsWithDropdown ScenarioD.page) !! 0%nat = Some ScenarioD.kept.
Proof.
  split; [reflexivity |].
  destruct (matchGoalIds_keeps_labels ScenarioD.page 0 ScenarioD.kept eq_refl)
    as (y & Hy & _ & _ & _ & _ & _ & _ & _ & _ & Hsame).
  rewrite Hy. f_equal. apply Hsame. right.
  intros o Hin Hvalue. cbn in Hin.
  apply elem_of_cons in Hin as [-> | Hin]; [discriminate Hvalue |].
  apply elem_of_cons in Hin as [-> | Hin]; [discriminate Hvalue |].
  now apply not_elem_of_nil in Hin.
Defined.

Example goal_deleted_and_goal_renamed :
  Session.goalText <$> sessions (matchGoalIdsWithDropdown ScenarioD.page)
  = [Some "Plan the week"%string; Some "Write report"%string].
Proof. reflexivity. Qed.

(** ** Reloading the cached log *)

(** Whatever the cache of the user holds, [loadSessions] ends with an empty
    log: the reference to [allSessions] throws after the parsed list has been
    assigned, and the handler of the surrounding [try] empties [sessions]. *)
Lemma loadSessions_cached (now : Z) (s : State) (savedSessions : list Stored.t) :
  truthy (userId s) = true ->
  sessions s = [] ->
  localStorage s !! storageKey (userId s) = Some savedSessions ->
  sessions (loadSessions now s) = [] /\
  console (loadSessions now s)
    = console s ++ [ErrorLoadingSavedSessions (ReferenceError "allSessions")].
Proof.
  intros Huser Hempty Hcache. unfold loadSessions.
  rewrite Huser, Hcache.
  destruct (decide (sessions s = [])) as [_ | Hne]; [| contradiction].
  cbn. split; reflexivity.
Qed.

(** C2, on the code.  The log written to the cache by a completed Work
    interval holds one record, begun on the day of the reload; the page
    loaded again with that cache and no server sessions has an empty log,
    and the console shows the [ReferenceError] caught on the way. *)
Theorem reload_from_cache_is_empty :
  sessions Reload.saved = [Reload.record] /\
  localStorage Reload.saved !! storageKey "42" = Some [Reload.cached] /\
  filter (fun x => startedToday 0 70000 x = true) (sessions Reload.saved)
    = [Reload.record] /\
  sessions Reload.reloaded = [] /\
  console Reload.reloaded
    = [ErrorLoadingSavedSessions (ReferenceError "allSessions")].
Proof. vm_compute. repeat split; reflexivity. Qed.

(** ** The pomodoro count and the target *)

Lemma intervals_stopped (s : State) :
  Inv s -> isRunning s = false -> intervals s = [].
Proof.
  intros (_ & _ & _ & Hlive & _) Hstopped.
  apply elem_of_nil_inv. intros h Hin.
  destruct (Hlive h Hin) as (Hrun & _). congruence.
Qed.

Lemma clearInterval_timer (s : State) :
  Inv s -> intervals (clearInterval (timer s) s) = [].
Proof.
  intros (_ & _ & _ & Hlive & _).
  apply elem_of_nil_inv. intros h Hin.
  destruct (timer s) as [i |] eqn:Htimer; cbn in Hin.
  - apply list_elem_of_filter in Hin as (Hne & Hin).
    destruct (Hlive h Hin) as (_ & Hsame). congruence.
  - destruct (Hlive h Hin) as (_ & Hsame). congruence.
Qed.

Lemma clearInterval_nil (h : option nat) (s : State) :
  intervals s = [] -> intervals (clearInterval h s) = [].
Proof. intros Hnil. destruct h; cbn; now rewrite ?Hnil. Qed.

Ltac inv_cases :=
  repeat match goal with
         | |- _ /\ _ => split
         | |- forall _, _ => intro
         | H : _ ∈ [] |- _ => apply not_elem_of_nil in H; destruct H
         | H : _ ∈ [_] |- _ => apply list_elem_of_singleton in H; subst
         | H : _ \/ _ |- _ => destruct H
         | H : is_Some None |- _ => destruct H; discriminate
         end;
  try solve [ eauto | lia | congruence | discriminate ].

Ltac inv_finish := unfold Inv; cbn; inv_cases.

Lemma Inv_startTimer (now : Z) (s : State) :
  Inv s -> beyondTarget s = false -> Inv (startTimer now s).
Proof.
  intros HInv Hok.
  destruct (isRunning s) eqn:Hrun.
  { unfold startTimer. now rewrite Hrun. }
  pose proof (intervals_stopped s HInv Hrun) as Hnone.
  destruct HInv as (Hle & Htotal & Hflags & Hlive & Hwork & Hstart).
  unfold beyondTarget in Hok. rewrite Hrun in Hok. cbn in Hok.
  unfold startTimer. rewrite Hrun.
  destruct (isPaused s) eqn:Hpaused; cbn; rewrite Hnone; inv_finish.
  all: rewrite ?Hpaused in *; cbn in *; try congruence; try discriminate.
  match goal with H : isWorkTime s = true |- _ => rewrite H in Hok end.
  cbn in Hok. apply Z.leb_gt in Hok. lia.
Qed.

Lemma Inv_pauseTimer (s : State) : Inv s -> Inv (pauseTimer s).
Proof.
  intros HInv. unfold pauseTimer.
  destruct (isRunning s) eqn:Hrun; [| assumption].
  cbn zeta. rewrite clearInterval_fields, (clearInterval_timer s HInv).
  destruct HInv as (Hle & Htotal & Hflags & Hlive & Hwork & Hstart).
  inv_finish.
Qed.

Lemma Inv_resetTimer (s : State) : Inv s -> Inv (resetTimer s).
Proof.
  intros HInv. unfold resetTimer, initTimer.
  cbn zeta. rewrite clearInterval_fields, (clearInterval_timer s HInv).
  destruct HInv as (Hle & Htotal & Hflags & Hlive & Hwork & Hstart).
  inv_finish.
Qed.

(** The variables the invariant reads, after each branch of
    [completeSession]. *)
Lemma taskCompleted_fields (goalId : option GoalId) (s : State) :
  currentPomodoroCount (taskCompleted goalId s) = currentPomodoroCount s /\
  totalPomodoros (taskCompleted goalId s) = totalPomodoros s /\
  isRunning (taskCompleted goalId s) = false /\
  isPaused (taskCompleted goalId s) = isPaused s /\
  isWorkTime (taskCompleted goalId s) = true /\
  startTime (taskCompleted goalId s) = startTime s /\
  intervals (taskCompleted goalId s) = intervals s /\
  timer (taskCompleted goalId s) = timer s.
Proof. unfold taskCompleted. destruct goalId; cbn; repeat split; reflexivity. Qed.

Lemma switchToBreak_fields (s : State) :
  currentPomodoroCount (switchToBreak s) = currentPomodoroCount s /\
  totalPomodoros (switchToBreak s) = totalPomodoros s /\
  isRunning (switchToBreak s) = false /\
  isPaused (switchToBreak s) = isPaused s /\
  isWorkTime (switchToBreak s) = false /\
  startTime (switchToBreak s) = startTime s /\
  intervals (switchToBreak s) = intervals (clearInterval (timer s) s) /\
  timer (switchToBreak s) = timer s.
Proof.
  unfold switchToBreak, setTimeout. cbn zeta.
  rewrite clearInterval_fields. cbn.
  destruct (timer s); repeat split; reflexivity.
Qed.

Lemma breakCompleted_fields (s : State) :
  currentPomodoroCount (breakCompleted s) = currentPomodoroCount s /\
  totalPomodoros (breakCompleted s) = totalPomodoros s /\
  isRunning (breakCompleted s) = false /\
  isPaused (breakCompleted s) = isPaused s /\
  isWorkTime (breakCompleted s) = true /\
  startTime (breakCompleted s) = startTime s /\
  intervals (breakCompleted s) = intervals s /\
  timer (breakCompleted s) = timer s.
Proof.
  unfold breakCompleted, setTimeout. cbn.
  destruct (_ <? _); cbn; repeat split; reflexivity.
Qed.

Lemma Inv_completeSession (now : Z) (s : State) :
  Inv s -> isRunning s = true -> intervals s = [] -> Inv (completeSession now s).
Proof.
  intros (Hle & Htotal & Hflags & Hlive & Hwork & Hstart) Hrun Hnone.
  pose proof (Hflags Hrun) as Hpaused.
  destruct (isWorkTime s) eqn:Hphase.
  - destruct (Hstart (or_introl Hrun)) as (t0 & Ht0).
    rewrite (completeSession_work now s t0 Hphase Ht0).
    pose proof (Hwork eq_refl (or_introl Hrun)) as Hmore.
    pose proof (recorded_frame now s) as
      (_ & Hcount & Htot & _ & Hp & _ & Hst & _ & _ & Htimer & Hint & _).
    remember (recorded now s) as r eqn:Hr. clear Hr.
    destruct (totalPomodoros s <=? currentPomodoroCount s + 1) eqn:Hlast.
    + destruct (taskCompleted_fields (Select.value (goalSelect s)) r)
        as (Ec & Et & Er & Ep & Ew & Es & Ei & _).
      unfold Inv. rewrite Ec, Et, Er, Ep, Ew, Es, Ei.
      rewrite Hcount, Htot, Hp, Hint, Hnone, Hpaused.
      inv_cases.
    + destruct (switchToBreak_fields r) as (Ec & Et & Er & Ep & Ew & Es & Ei & _).
      unfold Inv. rewrite Ec, Et, Er, Ep, Ew, Es, Ei.
      rewrite clearInterval_nil by congruence.
      rewrite Hcount, Htot, Hp, Hpaused.
      apply Z.leb_gt in Hlast.
      inv_cases.
  - rewrite (completeSession_break now s Hphase).
    destruct (breakCompleted_fields s) as (Ec & Et & Er & Ep & Ew & Es & Ei & _).
    unfold Inv. rewrite Ec, Et, Er, Ep, Ew, Es, Ei, Hnone, Hpaused.
    inv_cases.
Qed.

Lemma Inv_tick (h : nat) (now : Z) (s : State) : Inv s -> Inv (tick h now s).
Proof.
  intros HInv. unfold tick.
  destruct (decide (h ∈ intervals s)) as [Hlive |]; [| assumption].
  cbn zeta.
  assert (HInv' : Inv (set_timeLeft (timeLeft s - 1) s)) by exact HInv.
  assert (Hrun : isRunning s = true).
  { destruct HInv as (_ & _ & _ & Hl & _). now destruct (Hl h Hlive). }
  remember (set_timeLeft (timeLeft s - 1) s) as s1 eqn:Hs1.
  assert (Hrun1 : isRunning s1 = true) by (subst s1; exact Hrun).
  clear Hs1.
  destruct (timeLeft s1 <=? 0); [| assumption].
  apply Inv_completeSession.
  - rewrite clearInterval_fields, (clearInterval_timer s1 HInv').
    destruct HInv' as (Hle & Htotal & Hflags & Hl & Hwork & Hstart).
    inv_finish.
  - rewrite clearInterval_fields. exact Hrun1.
  - apply (clearInterval_timer s1 HInv').
Qed.

Lemma Inv_timeout (h : nat) (now : Z) (s : State) :
  Inv s ->
  bool_decide (h ∈ (timeouts s).*1) && beyondTarget s = false ->
  Inv (timeout h now s).
Proof.
  intros HInv Hok. unfold timeout.
  destruct (decide (h ∈ (timeouts s).*1)) as [Hdue |]; [| assumption].
  rewrite bool_decide_eq_true_2 in Hok by assumption. cbn in Hok.
  apply Inv_startTimer; assumption.
Qed.

Lemma Inv_handle (s : State) (ev : Event) :
  Inv s -> startsBeyondTarget s ev = false -> Inv (handle s ev).
Proof.
  intros HInv Hok. destruct ev as [now | | | h now | h now]; cbn in *.
  - now apply Inv_startTimer.
  - now apply Inv_pauseTimer.
  - now apply Inv_resetTimer.
  - now apply Inv_tick.
  - now apply Inv_timeout.
Qed.

Lemma Inv_run (evs : list Event) (s : State) :
  Inv s -> withinTarget s evs = true -> Inv (run evs s).
Proof.
  revert s. induction evs as [| ev evs IH]; intros s HInv Hwithin; [assumption |].
  cbn in Hwithin. apply andb_prop in Hwithin as (Hev & Hrest).
  apply negb_true_iff in Hev.
  cbn. apply IH; [now apply Inv_handle | assumption].
Qed.

(** A Work interval that ends on a met target raises the count above it. *)
Lemma completeSession_overshoots (later : Z) (s : State) (t0 : Z) :
  isWorkTime s = true ->
  startTime s = Some t0 ->
  totalPomodoros s <= currentPomodoroCount s ->
  totalPomodoros (completeSession later s)
  < currentPomodoroCount (completeSession later s).
Proof.
  intros Hphase Hstart Hmet.
  rewrite (completeSession_work later s t0 Hphase Hstart).
  pose proof (recorded_frame later s) as (_ & Hc & Ht & _).
  remember (recorded later s) as r eqn:Hr. clear Hr.
  replace (_ <=? _) with true by (symmetry; apply Z.leb_le; lia).
  unfold taskCompleted.
  destruct (Select.value (goalSelect s)); cbn; lia.
Qed.

(** [startTimer] on a met target opens such an interval. *)
Lemma start_beyond_target_overshoots (now later : Z) (s : State) :
  beyondTarget s = true ->
  totalPomodoros (completeSession later (startTimer now s))
  < currentPomodoroCount (completeSession later (startTimer now s)).
Proof.
  unfold beyondTarget. intros Hbeyond.
  apply andb_prop in Hbeyond as (Hbeyond & Hmet).
  apply andb_prop in Hbeyond as (Hbeyond & Hwork).
  apply andb_prop in Hbeyond as (Hrun & Hpaused).
  apply negb_true_iff in Hrun, Hpaused. apply Z.leb_le in Hmet.
  destruct (startTimer_stopped now s Hrun) as (_ & Hphase & _ & Hcount & Htotal & _).
  assert (Hstart : startTime (startTimer now s) = Some now).
  { unfold startTimer. rewrite Hrun, Hpaused. reflexivity. }
  remember (startTimer now s) as s' eqn:Hs'. clear Hs'.
  apply (completeSession_overshoots later s' now); [congruence | assumption | lia].
Qed.

(** C1, as the code has it.  From an idle state whose count is within the
    target, the count stays within the target along every run of start,
    pause, reset, tick and timeout events in which [startTimer] never opens
    a Work interval on a target that is already met. *)
Theorem count_within_target (s0 : State) (evs : list Event) :
  isRunning s0 = false ->
  isPaused s0 = false ->
  intervals s0 = [] ->
  0 <= currentPomodoroCount s0 ->
  currentPomodoroCount s0 <= totalPomodoros s0 ->
  withinTarget s0 evs = true ->
  currentPomodoroCount (run evs s0) <= totalPomodoros (run evs s0).
Proof.
  intros Hrun Hpaused Hnone Hcount Hle Hwithin.
  assert (HInv : Inv s0).
  { unfold Inv. rewrite Hrun, Hpaused, Hnone. inv_finish. }
  now destruct (Inv_run evs s0 HInv Hwithin) as (Hgoal & _).
Qed.

Lemma count_within_target_witness :
  isRunning Demo.bound = false /\
  withinTarget Demo.bound Demo.threeIntervals = true /\
  currentPomodoroCount (run Demo.threeIntervals Demo.bound)
  <= totalPomodoros (run Demo.threeIntervals Demo.bound).
Proof.
  split; [reflexivity |]. split; [vm_compute; reflexivity |].
  apply (count_within_target Demo.bound Demo.threeIntervals).
  - reflexivity.
  - reflexivity.
  - reflexivity.
  - vm_compute. discriminate.
  - vm_compute. discriminate.
  - vm_compute. reflexivity.
Defined.

(** The run of the three-pomodoro goal ends on the target. *)
Example three_intervals_reach_target :
  let s := run Demo.threeIntervals Demo.bound in
  currentPomodoroCount s = 3 /\ totalPomodoros s = 3 /\
  statusText s = TaskCompleted /\
  requests s =
    [PostPomodoro (Some 7%positive) 2000 62000 1 3;
     PostPomodoro (Some 7%positive) 123800 183800 2 3;
     PostPomodoro (Some 7%positive) 245600 305600 3 3;
     PostGoalComplete 7%positive].
Proof. vm_compute. repeat split; reflexivity. Qed.

(** C1, as stated, fails.  With no goal bound the first Work interval meets
    the target of one and re-enables the start button; a second Work interval
    started from there completes with a count of two. *)
Lemma count_exceeds_target :
  let s1 := run Demo.oneInterval Demo.unbound in
  let s2 := run (Start 70000 :: Demo.ticks 1 70000 60) s1 in
  currentPomodoroCount s1 = 1 /\
  totalPomodoros s1 = 1 /\
  Button.disabled (startBtn s1) = false /\
  currentPomodoroCount s2 = 2 /\
  totalPomodoros s2 = 1 /\
  ~ currentPomodoroCount s2 <= totalPomodoros s2.
Proof. vm_compute. repeat split; try reflexivity. intros H; apply H; reflexivity. Qed.

(** * Further properties *)

(** ** One countdown at a time *)

Lemma clearInterval_oneCountdown (s : State) :
  oneCountdown s -> intervals (clearInterval (timer s) s) = [].
Proof.
  intros [Hnone | (_ & h & Hone & Htimer)].
  - now apply clearInterval_nil.
  - rewrite Htimer. cbn. rewrite Hone. cbn.
    destruct (decide (h <> h)) as [Hne | _]; [now destruct Hne | reflexivity].
Qed.

(** [completeSession] on an unstarted Work interval: [saveSession] throws
    after the record has been appended. *)
Lemma completeSession_unstarted (now : Z) (s : State) :
  isWorkTime s = true ->
  startTime s = None ->
  completeSession now s =
  let s1 := set_currentPomodoroCount (currentPomodoroCount s + 1) s in
  let s2 := saveToLocalStorage
              (set_sessions (sessions s1 ++ [sessionRecord now s1]) s1) in
  set_console (console s2 ++ [Uncaught (TypeError "startTime is undefined")]) s2.
Proof.
  intros Hwork Hstart. unfold completeSession. rewrite Hwork. cbn zeta.
  unfold saveSession.
  replace (Session.startTime (sessionRecord now _)) with (@None Z)
    by (cbn; now rewrite Hstart).
  reflexivity.
Qed.

Lemma completeSession_intervals (now : Z) (s : State) :
  intervals s = [] -> intervals (completeSession now s) = [].
Proof.
  intros Hnone.
  destruct (isWorkTime s) eqn:Hwork.
  - destruct (startTime s) as [t0 |] eqn:Hstart.
    + rewrite (completeSession_work now s t0 Hwork Hstart).
      pose proof (recorded_frame now s) as
        (_ & _ & _ & _ & _ & _ & _ & _ & _ & _ & Hint & _).
      remember (recorded now s) as r eqn:Hr. clear Hr.
      destruct (_ <=? _).
      * destruct (taskCompleted_fields (Select.value (goalSelect s)) r)
          as (_ & _ & _ & _ & _ & _ & Ei & _).
        congruence.
      * destruct (switchToBreak_fields r) as (_ & _ & _ & _ & _ & _ & Ei & _).
        rewrite Ei. apply clearInterval_nil. congruence.
    + rewrite (completeSession_unstarted now s Hwork Hstart). cbn zeta.
      rewrite saveToLocalStorage_frame. exact Hnone.
  - rewrite (completeSession_break now s Hwork).
    destruct (breakCompleted_fields s) as (_ & _ & _ & _ & _ & _ & Ei & _).
    congruence.
Qed.

Lemma oneCountdown_startTimer (now : Z) (s : State) :
  oneCountdown s -> oneCountdown (startTimer now s).
Proof.
  intros Hone. unfold startTimer.
  destruct (isRunning s) eqn:Hrun; [assumption |].
  destruct Hone as [Hnone | (Habs & _)]; [| congruence].
  right. destruct (isPaused s); cbn; rewrite Hnone;
    (split; [reflexivity | exists (nextHandle s); split; reflexivity]).
Qed.

Lemma oneCountdown_tick (h : nat) (now : Z) (s : State) :
  oneCountdown s -> oneCountdown (tick h now s).
Proof.
  intros Hone. unfold tick.
  destruct (decide (h ∈ intervals s)) as [Hlive |]; [| assumption].
  cbn zeta. destruct (_ <=? 0); [| exact Hone].
  left. apply completeSession_intervals.
  apply (clearInterval_oneCountdown (set_timeLeft (timeLeft s - 1) s) Hone).
Qed.

Lemma oneCountdown_handle (s : State) (ev : Event) :
  oneCountdown s -> oneCountdown (handle s ev).
Proof.
  intros Hone. destruct ev as [now | | | h now | h now]; cbn.
  - now apply oneCountdown_startTimer.
  - unfold pauseTimer. destruct (isRunning s); [| assumption].
    left. cbn zeta. rewrite clearInterval_fields.
    apply (clearInterval_oneCountdown s Hone).
  - left. unfold resetTimer, initTimer. cbn zeta. rewrite clearInterval_fields.
    apply (clearInterval_oneCountdown s Hone).
  - now apply oneCountdown_tick.
  - unfold timeout. destruct (decide _); [| assumption].
    now apply oneCountdown_startTimer.
Qed.

(** The handlers outside the timer leave the interval bookkeeping alone. *)
Lemma updateCurrentGoalDisplay_fields (s : State) :
  intervals (updateCurrentGoalDisplay s) = intervals s /\
  isRunning (updateCurrentGoalDisplay s) = isRunning s /\
  isPaused (updateCurrentGoalDisplay s) = isPaused s /\
  timer (updateCurrentGoalDisplay s) = timer s /\
  startTime (updateCurrentGoalDisplay s) = startTime s /\
  sessions (updateCurrentGoalDisplay s) = sessions s /\
  requests (updateCurrentGoalDisplay s) = requests s /\
  console (updateCurrentGoalDisplay s) = console s /\
  localStorage (updateCurrentGoalDisplay s) = localStorage s /\
  userId (updateCurrentGoalDisplay s) = userId s /\
  goalSelect (updateCurrentGoalDisplay s) = goalSelect s.
Proof.
  unfold updateCurrentGoalDisplay.
  destruct (Select.value (goalSelect s)), (Select.selectedOption (goalSelect s));
    cbn; repeat split; reflexivity.
Qed.

Lemma markGoalAsCompleted_then_fields (g : GoalId) (success : bool) (s : State) :
  intervals (markGoalAsCompleted_then g success s) = intervals s /\
  isRunning (markGoalAsCompleted_then g success s) = isRunning s /\
  isPaused (markGoalAsCompleted_then g success s) = isPaused s /\
  timer (markGoalAsCompleted_then g success s) = timer s /\
  startTime (markGoalAsCompleted_then g success s) = startTime s /\
  sessions (markGoalAsCompleted_then g success s) = sessions s /\
  requests (markGoalAsCompleted_then g success s) = requests s /\
  console (markGoalAsCompleted_then g success s) = console s /\
  localStorage (markGoalAsCompleted_then g success s) = localStorage s /\
  userId (markGoalAsCompleted_then g success s) = userId s.
Proof.
  unfold markGoalAsCompleted_then. destruct success; [| repeat split; reflexivity].
  cbn zeta.
  match goal with
  | |- context [updateCurrentGoalDisplay ?x] =>
      destruct (updateCurrentGoalDisplay_fields x)
        as (E1 & E2 & E3 & E4 & E5 & E6 & E7 & E8 & E9 & E10 & _);
      rewrite E1, E2, E3, E4, E5, E6, E7, E8, E9, E10
  end.
  repeat split; reflexivity.
Qed.

Lemma oneCountdown_perform (s : State) (a : Action) :
  oneCountdown s -> oneCountdown (perform s a).
Proof.
  intros Hone. destruct a as [ev | text | text | index | g success]; cbn.
  - now apply oneCountdown_handle.
  - exact Hone.
  - exact Hone.
  - unfold oneCountdown.
    match goal with
    | |- context [updateCurrentGoalDisplay ?x] =>
        destruct (updateCurrentGoalDisplay_fields x) as (E1 & E2 & _ & E4 & _);
        rewrite E1, E2, E4
    end.
    exact Hone.
  - unfold oneCountdown.
    destruct (markGoalAsCompleted_then_fields g success s) as (E1 & E2 & _ & E4 & _).
    rewrite E1, E2, E4. exact Hone.
Qed.

(** X1. Whatever the user and the browser do to a page on which no interval
    is live, at most one interval is live afterwards, and then the timer is
    running and [timer] holds its handle: two countdowns never run at once. *)
Theorem one_countdown_at_a_time (acts : list Action) (s0 : State) :
  intervals s0 = [] ->
  oneCountdown (performAll acts s0).
Proof.
  intros Hnone. assert (Hone : oneCountdown s0) by now left.
  clear Hnone. revert s0 Hone.
  induction acts as [| a acts IH]; intros s0 Hone; [assumption |].
  cbn. apply IH. now apply oneCountdown_perform.
Qed.

Lemma one_countdown_at_a_time_witness :
  intervals Demo.unbound = [] /\
  oneCountdown
    (performAll
       [TimerEvent (Start 2000); TimerEvent (Start 2500); TimerEvent Pause;
        ChangeWorkMinutes "2"; TimerEvent (Start 4000); TimerEvent (Tick 1 5000);
        TimerEvent Reset; TimerEvent (Start 6000)]
       Demo.unbound).
Proof.
  split; [reflexivity |].
  apply one_countdown_at_a_time. reflexivity.
Defined.

(** ** The countdown *)

Lemma set_timeLeft_twice (a b : Z) (s : State) :
  set_timeLeft a (set_timeLeft b s) = set_timeLeft a s.
Proof. reflexivity. Qed.

(** While more than one second is left, a turn of the live interval takes
    one second off and does nothing else. *)
Lemma tick_counts_down (h : nat) (now : Z) (s : State) :
  h ∈ intervals s -> 1 < timeLeft s ->
  tick h now s = set_timeLeft (timeLeft s - 1) s.
Proof.
  intros Hlive Hleft. unfold tick.
  rewrite decide_True by assumption. cbn.
  replace (timeLeft s - 1 <=? 0) with false by (symmetry; apply Z.leb_gt; lia).
  reflexivity.
Qed.

(** With at most one second left, the turn stops the interval and completes
    the session. *)
Lemma tick_completes (h : nat) (now : Z) (s : State) :
  h ∈ intervals s -> timeLeft s <= 1 ->
  tick h now s
  = completeSession now (clearInterval (timer s) (set_timeLeft (timeLeft s - 1) s)).
Proof.
  intros Hlive Hleft. unfold tick.
  rewrite decide_True by assumption. cbn.
  replace (timeLeft s - 1 <=? 0) with true by (symmetry; apply Z.leb_le; lia).
  reflexivity.
Qed.

Lemma turns_count_down (h : nat) (nows : list Z) (s : State) :
  h ∈ intervals s ->
  Z.of_nat (length nows) < timeLeft s ->
  run (turns h nows) s = set_timeLeft (timeLeft s - Z.of_nat (length nows)) s.
Proof.
  revert s. induction nows as [| now nows IH]; intros s Hlive Hleft.
  - cbn. rewrite Z.sub_0_r. now destruct s.
  - cbn [length] in Hleft. rewrite Nat2Z.inj_succ in Hleft.
    cbn. rewrite (tick_counts_down h now s Hlive) by lia.
    unfold turns, run in IH. rewrite IH; [| exact Hlive | cbn; lia].
    cbn [length]. rewrite Nat2Z.inj_succ. cbn [timeLeft set_timeLeft].
    rewrite set_timeLeft_twice. f_equal. lia.
Qed.

(** X2. A countdown of [n] seconds lasts exactly [n] turns of its interval:
    the first [n - 1] only lower [timeLeft], down to 1, and the [n]-th stops
    the interval and runs [completeSession] with no time left. *)
Theorem countdown_completes_on_last_turn (h : nat) (nows : list Z) (now : Z)
    (s : State) :
  h ∈ intervals s ->
  timeLeft s = Z.of_nat (length nows) + 1 ->
  run (turns h nows) s = set_timeLeft 1 s /\
  run (turns h (nows ++ [now])) s
  = completeSession now (clearInterval (timer s) (set_timeLeft 0 s)).
Proof.
  intros Hlive Hleft.
  assert (Hfirst : run (turns h nows) s = set_timeLeft 1 s).
  { rewrite (turns_count_down h nows s Hlive) by lia. f_equal. lia. }
  split; [exact Hfirst |].
  unfold turns, run in *. rewrite fmap_app, fold_left_app, Hfirst. cbn.
  rewrite tick_completes by (cbn; first [exact Hlive | lia]).
  reflexivity.
Qed.

Lemma countdown_completes_on_last_turn_witness :
  let nows := (fun i => 2000 + 1000 * Z.of_nat i) <$> seq 1 59 in
  0%nat ∈ intervals Demo.running /\
  timeLeft Demo.running = Z.of_nat (length nows) + 1 /\
  timeLeft (run (turns 0 nows) Demo.running) = 1 /\
  statusText (run (turns 0 (nows ++ [62000])) Demo.running) = TaskCompleted.
Proof.
  cbv zeta.
  assert (Hlive : 0%nat ∈ intervals Demo.running) by (vm_compute; apply list_elem_of_here).
  assert (Hleft : timeLeft Demo.running
                  = Z.of_nat (length ((fun i => 2000 + 1000 * Z.of_nat i) <$> seq 1 59)) + 1)
    by (vm_compute; reflexivity).
  split; [exact Hlive |]. split; [exact Hleft |].
  destruct (countdown_completes_on_last_turn 0
              ((fun i => 2000 + 1000 * Z.of_nat i) <$> seq 1 59) 62000
              Demo.running Hlive Hleft) as (Hfirst & Hlast).
  split.
  - rewrite Hfirst. reflexivity.
  - rewrite Hlast. vm_compute. reflexivity.
Defined.

(** ** The log only grows *)

Lemma completeSession_sessions (now : Z) (s : State) :
  sessions (completeSession now s)
  = sessions s ++
    (if isWorkTime s
     then [sessionRecord now (set_currentPomodoroCount (currentPomodoroCount s + 1) s)]
     else []).
Proof.
  destruct (isWorkTime s) eqn:Hwork.
  - destruct (startTime s) as [t0 |] eqn:Hstart.
    + rewrite (completeSession_work now s t0 Hwork Hstart).
      pose proof (recorded_frame now s) as (Hsessions & _).
      remember (recorded now s) as r eqn:Hr. clear Hr.
      destruct (_ <=? _).
      * unfold taskCompleted. destruct (Select.value (goalSelect s)); exact Hsessions.
      * unfold switchToBreak, setTimeout. cbn zeta.
        rewrite clearInterval_fields. exact Hsessions.
    + rewrite (completeSession_unstarted now s Hwork Hstart). cbn zeta.
      rewrite saveToLocalStorage_frame. reflexivity.
  - rewrite (completeSession_break now s Hwork), app_nil_r.
    unfold breakCompleted, setTimeout. cbn. destruct (_ <? _); reflexivity.
Qed.

Lemma handle_sessions (s : State) (ev : Event) :
  exists l, sessions (handle s ev) = sessions s ++ l.
Proof.
  destruct ev as [now | | | h now | h now]; cbn.
  - exists []. rewrite app_nil_r. unfold startTimer.
    destruct (isRunning s), (isPaused s); reflexivity.
  - exists []. rewrite app_nil_r. unfold pauseTimer.
    destruct (isRunning s); [| reflexivity].
    cbn zeta. rewrite clearInterval_fields. reflexivity.
  - exists []. rewrite app_nil_r. unfold resetTimer, initTimer.
    cbn zeta. rewrite clearInterval_fields. reflexivity.
  - unfold tick. destruct (decide _); [| exists []; now rewrite app_nil_r].
    cbn zeta. destruct (_ <=? 0); [| exists []; now rewrite app_nil_r].
    rewrite completeSession_sessions, clearInterval_fields. eexists. reflexivity.
  - exists []. rewrite app_nil_r. unfold timeout.
    destruct (decide _); [| reflexivity].
    unfold startTimer. cbn.
    destruct (isRunning s), (isPaused s); reflexivity.
Qed.

Lemma perform_sessions (s : State) (a : Action) :
  exists l, sessions (perform s a) = sessions s ++ l.
Proof.
  destruct a as [ev | text | text | index | g success]; cbn.
  - apply handle_sessions.
  - exists []. now rewrite app_nil_r.
  - exists []. now rewrite app_nil_r.
  - exists []. rewrite app_nil_r.
    match goal with
    | |- context [updateCurrentGoalDisplay ?x] =>
        destruct (updateCurrentGoalDisplay_fields x) as (_ & _ & _ & _ & _ & E & _)
    end.
    exact E.
  - exists []. rewrite app_nil_r.
    now destruct (markGoalAsCompleted_then_fields g success s)
      as (_ & _ & _ & _ & _ & E & _).
Qed.

(** X3. The log is append-only while the page lives: after any sequence of
    actions the log begins with the log as it was; no handler removes,
    reorders or rewrites a record. *)
Theorem sessions_append_only (acts : list Action) (s : State) :
  exists l, sessions (performAll acts s) = sessions s ++ l.
Proof.
  revert s. induction acts as [| a acts IH]; intros s.
  - exists []. cbn. now rewrite app_nil_r.
  - cbn. destruct (IH (perform s a)) as (l2 & H2).
    destruct (perform_sessions s a) as (l1 & H1).
    exists (l1 ++ l2). unfold performAll in H2. rewrite H2, H1. now rewrite app_assoc.
Qed.

(** ** Log, cache and Session Store in step *)

Lemma serialize_app (l : list Session.t) (x : Session.t) (items : list Stored.t)
    (y : Stored.t) :
  serialize l = inr items -> toStored x = inr y ->
  serialize (l ++ [x]) = inr (items ++ [y]).
Proof.
  revert items. induction l as [| z l IH]; intros items Hl Hx; cbn in *.
  - injection Hl as <-. now rewrite Hx.
  - destruct (toStored z) as [e | z']; [discriminate |].
    destruct (serialize l) as [e | zs]; [discriminate |].
    injection Hl as <-. now rewrite (IH zs eq_refl Hx).
Qed.

Lemma serialize_allStarted (l : list Session.t) :
  allStarted l -> exists items, serialize l = inr items.
Proof.
  induction 1 as [| x l (t0 & Hx) _ (items & IH)]; cbn.
  - now exists [].
  - unfold toStored. rewrite Hx, IH. eexists. reflexivity.
Qed.

(** The record of a started Work interval goes into the cache with the
    rest of the log. *)
Lemma recorded_cache (now : Z) (s : State) (t0 : Z) :
  allStarted (sessions s) ->
  startTime s = Some t0 ->
  cacheCurrent (recorded now s) /\
  console (recorded now s) = console s /\
  userId (recorded now s) = userId s.
Proof.
  intros Hall Hstart.
  destruct (serialize_allStarted _ Hall) as (items & Hitems).
  set (x := sessionRecord now (set_currentPomodoroCount (currentPomodoroCount s + 1) s)).
  assert (Hx : exists y, toStored x = inr y).
  { unfold toStored, x. cbn. rewrite Hstart. eexists. reflexivity. }
  destruct Hx as (y & Hy).
  pose proof (serialize_app _ _ _ _ Hitems Hy) as Hnew.
  unfold cacheCurrent, recorded. cbn zeta. fold x.
  set (s1 := set_sessions _ _).
  assert (Hsave : saveToLocalStorage s1
                  = set_localStorage (<[storageKey (userId s) := items ++ [y]]> (localStorage s)) s1).
  { unfold saveToLocalStorage. subst s1. cbn. now rewrite Hnew. }
  rewrite Hsave. subst s1. cbn.
  split; [| split; reflexivity].
  exists (items ++ [y]). split; [exact Hnew | apply lookup_insert_eq].
Qed.

Lemma postPomodoros_app (rs rs' : list Request) :
  postPomodoros (rs ++ rs') = postPomodoros rs ++ postPomodoros rs'.
Proof. apply filter_app. Qed.

(** What the branches of [completeSession] leave of the log, the cache, the
    Session Store calls, the console and the recorded start. *)
Lemma taskCompleted_log (goalId : option GoalId) (s : State) :
  sessions (taskCompleted goalId s) = sessions s /\
  localStorage (taskCompleted goalId s) = localStorage s /\
  postPomodoros (requests (taskCompleted goalId s)) = postPomodoros (requests s) /\
  console (taskCompleted goalId s) = console s /\
  userId (taskCompleted goalId s) = userId s.
Proof.
  unfold taskCompleted. destruct goalId; cbn; repeat split; try reflexivity.
  rewrite postPomodoros_app. cbn. apply app_nil_r.
Qed.

Lemma switchToBreak_log (s : State) :
  sessions (switchToBreak s) = sessions s /\
  localStorage (switchToBreak s) = localStorage s /\
  requests (switchToBreak s) = requests s /\
  console (switchToBreak s) = console s /\
  userId (switchToBreak s) = userId s.
Proof.
  unfold switchToBreak, setTimeout. cbn zeta. rewrite clearInterval_fields.
  repeat split; reflexivity.
Qed.

Lemma breakCompleted_log (s : State) :
  sessions (breakCompleted s) = sessions s /\
  localStorage (breakCompleted s) = localStorage s /\
  requests (breakCompleted s) = requests s /\
  console (breakCompleted s) = console s /\
  userId (breakCompleted s) = userId s.
Proof.
  unfold breakCompleted, setTimeout. cbn. destruct (_ <? _); repeat split; reflexivity.
Qed.

Lemma cacheCurrent_same (s s' : State) :
  sessions s' = sessions s -> localStorage s' = localStorage s ->
  userId s' = userId s -> cacheCurrent s -> cacheCurrent s'.
Proof.
  intros Hs Hl Hu (items & H1 & H2). exists items.
  now rewrite Hs, Hl, Hu.
Qed.

(** A completion of a started interval. *)
Lemma completeSession_step (now : Z) (s : State) (t0 : Z) :
  allStarted (sessions s) ->
  startTime s = Some t0 ->
  let s' := completeSession now s in
  (quietStep s s' \/ recordingStep s s') /\
  console s' = console s /\ userId s' = userId s /\
  startTime s' = startTime s /\
  isRunning s' = false /\ isPaused s' = isPaused s /\
  (intervals s = [] -> intervals s' = []).
Proof.
  intros Hall Hstart s'. subst s'.
  split; [| split; [| split; [| split; [| split; [| split]]]]];
    try apply completeSession_intervals.
  - destruct (isWorkTime s) eqn:Hwork.
    + right.
      rewrite (completeSession_work now s t0 Hwork Hstart).
      destruct (recorded_cache now s t0 Hall Hstart) as (Hcache & _ & Huser).
      pose proof (recorded_frame now s) as
        (Hsessions & _ & _ & _ & _ & _ & _ & _ & _ & _ & _ & _ & _ & _ & Hreq).
      remember (recorded now s) as r eqn:Hr. clear Hr.
      rewrite Hstart in Hreq. cbn in Hreq.
      exists (sessionRecord now (set_currentPomodoroCount (currentPomodoroCount s + 1) s)).
      eexists.
      assert (Hsub : submitted
                (sessionRecord now (set_currentPomodoroCount (currentPomodoroCount s + 1) s))
                (PostPomodoro (Select.value (goalSelect s)) t0 now
                   (currentPomodoroCount s + 1) (totalPomodoros s))).
      { exists t0. cbn. rewrite Hstart. split; reflexivity. }
      destruct (_ <=? _).
      * destruct (taskCompleted_log (Select.value (goalSelect s)) r)
          as (E1 & E2 & E3 & _ & E5).
        rewrite E1, E3, Hsessions, Hreq, postPomodoros_app.
        split; [reflexivity |]. split; [exact Hsub |]. split; [reflexivity |].
        apply (cacheCurrent_same r); assumption.
      * destruct (switchToBreak_log r) as (E1 & E2 & E3 & _ & E5).
        rewrite E1, E3, Hsessions, Hreq, postPomodoros_app.
        split; [reflexivity |]. split; [exact Hsub |]. split; [reflexivity |].
        apply (cacheCurrent_same r); assumption.
    + left. rewrite (completeSession_break now s Hwork).
      destruct (breakCompleted_log s) as (E1 & E2 & E3 & _).
      unfold quietStep. now rewrite E1, E2, E3.
  - destruct (isWorkTime s) eqn:Hwork.
    + rewrite (completeSession_work now s t0 Hwork Hstart).
      destruct (recorded_cache now s t0 Hall Hstart) as (_ & Hconsole & _).
      remember (recorded now s) as r eqn:Hr. clear Hr.
      destruct (_ <=? _).
      * destruct (taskCompleted_log (Select.value (goalSelect s)) r) as (_ & _ & _ & E & _).
        congruence.
      * destruct (switchToBreak_log r) as (_ & _ & _ & E & _). congruence.
    + rewrite (completeSession_break now s Hwork).
      now destruct (breakCompleted_log s) as (_ & _ & _ & E & _).
  - destruct (isWorkTime s) eqn:Hwork.
    + rewrite (completeSession_work now s t0 Hwork Hstart).
      destruct (recorded_cache now s t0 Hall Hstart) as (_ & _ & Huser).
      remember (recorded now s) as r eqn:Hr. clear Hr.
      destruct (_ <=? _).
      * destruct (taskCompleted_log (Select.value (goalSelect s)) r) as (_ & _ & _ & _ & E).
        congruence.
      * destruct (switchToBreak_log r) as (_ & _ & _ & _ & E). congruence.
    + rewrite (completeSession_break now s Hwork).
      now destruct (breakCompleted_log s) as (_ & _ & _ & _ & E).
  - destruct (isWorkTime s) eqn:Hwork.
    + rewrite (completeSession_work now s t0 Hwork Hstart).
      pose proof (recorded_frame now s) as (_ & _ & _ & _ & _ & _ & Hst & _).
      remember (recorded now s) as r eqn:Hr. clear Hr.
      destruct (_ <=? _).
      * destruct (taskCompleted_fields (Select.value (goalSelect s)) r)
          as (_ & _ & _ & _ & _ & E & _).
        congruence.
      * destruct (switchToBreak_fields r) as (_ & _ & _ & _ & _ & E & _). congruence.
    + rewrite (completeSession_break now s Hwork).
      now destruct (breakCompleted_fields s) as (_ & _ & _ & _ & _ & E & _).
  - destruct (isWorkTime s) eqn:Hwork.
    + rewrite (completeSession_work now s t0 Hwork Hstart).
      remember (recorded now s) as r eqn:Hr. clear Hr.
      destruct (_ <=? _).
      * now destruct (taskCompleted_fields (Select.value (goalSelect s)) r)
          as (_ & _ & E & _).
      * now destruct (switchToBreak_fields r) as (_ & _ & E & _).
    + rewrite (completeSession_break now s Hwork).
      now destruct (breakCompleted_fields s) as (_ & _ & E & _).
  - destruct (isWorkTime s) eqn:Hwork.
    + rewrite (completeSession_work now s t0 Hwork Hstart).
      pose proof (recorded_frame now s) as (_ & _ & _ & _ & Hp & _).
      remember (recorded now s) as r eqn:Hr. clear Hr.
      destruct (_ <=? _).
      * destruct (taskCompleted_fields (Select.value (goalSelect s)) r)
          as (_ & _ & _ & E & _).
        congruence.
      * destruct (switchToBreak_fields r) as (_ & _ & _ & E & _). congruence.
    + rewrite (completeSession_break now s Hwork).
      now destruct (breakCompleted_fields s) as (_ & _ & _ & E & _).
Qed.

Lemma quietStep_refl (s s' : State) :
  sessions s' = sessions s -> localStorage s' = localStorage s ->
  requests s' = requests s -> quietStep s s'.
Proof. intros H1 H2 H3. unfold quietStep. now rewrite H1, H2, H3. Qed.

Lemma started_live (s : State) (h : nat) :
  started s -> h ∈ intervals s -> is_Some (startTime s).
Proof.
  intros [Hsome | (_ & _ & Hnone)] Hlive; [assumption |].
  rewrite Hnone in Hlive. now apply not_elem_of_nil in Hlive.
Qed.

Lemma startTimer_step (now : Z) (s : State) :
  started s ->
  started (startTimer now s) /\
  sessions (startTimer now s) = sessions s /\
  localStorage (startTimer now s) = localStorage s /\
  requests (startTimer now s) = requests s /\
  console (startTimer now s) = console s /\
  userId (startTimer now s) = userId s.
Proof.
  intros Hstarted. unfold startTimer.
  destruct (isRunning s) eqn:Hrun; [now repeat split |].
  destruct (isPaused s) eqn:Hpaused; cbn; (split; [| now repeat split]); left; cbn.
  - destruct Hstarted as [Hsome | (_ & Habs & _)]; [assumption | congruence].
  - now exists now.
Qed.

Lemma handle_step (s : State) (ev : Event) :
  started s ->
  allStarted (sessions s) ->
  started (handle s ev) /\
  (quietStep s (handle s ev) \/ recordingStep s (handle s ev)) /\
  console (handle s ev) = console s /\
  userId (handle s ev) = userId s.
Proof.
  intros Hstarted Hall. destruct ev as [now | | | h now | h now]; cbn.
  - destruct (startTimer_step now s Hstarted) as (H0 & H1 & H2 & H3 & H4 & H5).
    repeat split; try assumption. left. now apply quietStep_refl.
  - unfold pauseTimer. destruct (isRunning s) eqn:Hrun.
    + cbn zeta. rewrite clearInterval_fields. cbn.
      split; [| split; [left; now apply quietStep_refl | split; reflexivity]].
      left. cbn. destruct Hstarted as [Hsome | (Habs & _)]; [assumption | congruence].
    + split; [assumption |]. split; [left; now apply quietStep_refl | split; reflexivity].
  - unfold resetTimer, initTimer. cbn zeta. rewrite clearInterval_fields. cbn.
    split; [| split; [left; now apply quietStep_refl | split; reflexivity]].
    destruct Hstarted as [Hsome | (_ & _ & Hnone)]; [now left |].
    right. cbn. repeat split; try reflexivity. now apply clearInterval_nil.
  - unfold tick. destruct (decide (h ∈ intervals s)) as [Hlive |].
    2: { split; [assumption |].
         split; [left; now apply quietStep_refl | split; reflexivity]. }
    destruct (started_live s h Hstarted Hlive) as (t0 & Ht0).
    cbn zeta. destruct (_ <=? 0).
    2: { split; [left; cbn; now exists t0 |].
         split; [left; now apply quietStep_refl | split; reflexivity]. }
    rewrite clearInterval_fields.
    match goal with
    | |- context [completeSession now ?x] =>
        destruct (completeSession_step now x t0 Hall Ht0)
          as (Hstep & Hconsole & Huser & Hstart & _);
        remember x as s1 eqn:Hs1
    end.
    assert (Hsame : sessions s1 = sessions s /\ localStorage s1 = localStorage s /\
                    requests s1 = requests s /\ console s1 = console s /\
                    userId s1 = userId s /\ startTime s1 = Some t0).
    { subst s1. cbn. now repeat split. }
    clear Hs1. destruct Hsame as (E1 & E2 & E3 & E4 & E5 & E6).
    split; [left; rewrite Hstart, E6; now exists t0 |].
    split; [| split; congruence].
    unfold quietStep, recordingStep in *.
    rewrite E1, E2, E3 in Hstep. exact Hstep.
  - unfold timeout. destruct (decide _).
    + match goal with
      | |- context [startTimer now ?x] =>
          destruct (startTimer_step now x Hstarted) as (H0 & H1 & H2 & H3 & H4 & H5)
      end.
      repeat split; try assumption. left. now apply quietStep_refl.
    + split; [assumption |]. split; [left; now apply quietStep_refl | split; reflexivity].
Qed.

Lemma perform_step (s : State) (a : Action) :
  started s ->
  allStarted (sessions s) ->
  started (perform s a) /\
  (quietStep s (perform s a) \/ recordingStep s (perform s a)) /\
  console (perform s a) = console s /\
  userId (perform s a) = userId s.
Proof.
  intros Hstarted Hall. destruct a as [ev | text | text | index | g success]; cbn.
  - now apply handle_step.
  - split; [exact Hstarted |]. split; [left; now apply quietStep_refl | split; reflexivity].
  - split; [exact Hstarted |]. split; [left; now apply quietStep_refl | split; reflexivity].
  - match goal with
    | |- context [updateCurrentGoalDisplay ?x] =>
        destruct (updateCurrentGoalDisplay_fields x)
          as (E1 & E2 & E3 & _ & E5 & E6 & E7 & E8 & E9 & E10 & _)
    end.
    unfold started. rewrite E1, E2, E3, E5, E8, E10.
    split; [exact Hstarted |]. split; [left; now apply quietStep_refl | split; reflexivity].
  - destruct (markGoalAsCompleted_then_fields g success s)
      as (E1 & E2 & E3 & _ & E5 & E6 & E7 & E8 & E9 & E10).
    unfold started. rewrite E1, E2, E3, E5, E8, E10.
    split; [exact Hstarted |]. split; [left; now apply quietStep_refl | split; reflexivity].
Qed.

(** What a sequence of actions does to the log, the cache, the Session
    Store calls and the console. *)
Lemma performAll_trace (acts : list Action) (s0 : State) :
  started s0 ->
  allStarted (sessions s0) ->
  let s := performAll acts s0 in
  console s = console s0 /\
  userId s = userId s0 /\
  ((sessions s = sessions s0 /\ localStorage s = localStorage s0) \/ cacheCurrent s) /\
  exists l rs,
    sessions s = sessions s0 ++ l /\
    postPomodoros (requests s) = postPomodoros (requests s0) ++ rs /\
    Forall2 submitted l rs.
Proof.
  revert s0. induction acts as [| a acts IH]; intros s0 Hstarted Hall; cbn.
  - repeat split; try (left; now split).
    exists [], []. rewrite !app_nil_r. repeat split. constructor.
  - destruct (perform_step s0 a Hstarted Hall) as (Hstarted1 & Hstep & Hconsole1 & Huser1).
    assert (Hall1 : allStarted (sessions (perform s0 a))).
    { destruct Hstep as [(E & _) | (x & r & E & (t0 & Hx & _) & _)]; rewrite E.
      - exact Hall.
      - apply Forall_app. split; [exact Hall |]. constructor; [now exists t0 | constructor]. }
    destruct (IH (perform s0 a) Hstarted1 Hall1)
      as (Hconsole & Huser & Hcache & l & rs & Hl & Hrs & Hsub).
    fold (performAll acts (perform s0 a)) in *.
    split; [congruence |]. split; [congruence |].
    destruct Hstep as [(E1 & E2 & E3) | (x & r & E1 & Hx & E3 & Hcur)].
    + split.
      * destruct Hcache as [(Hs & Hc) | Hcur]; [left; split; congruence | now right].
      * exists l, rs. rewrite Hl, Hrs, E1, E3. now repeat split.
    + split.
      * right. destruct Hcache as [(Hs & Hc) | Hcur']; [| assumption].
        now apply (cacheCurrent_same (perform s0 a)).
      * exists (x :: l), (r :: rs). rewrite Hl, Hrs, E1, E3, <- !app_assoc.
        repeat split. now constructor.
Qed.

(** X4. On a page whose timer has a recorded start whenever an interval is
    under way, every record appended to the log is sent to the Session Store
    with its own goal id, instants and pomodoro numbers, in the same order,
    and nothing else is sent there. *)
Theorem sessions_and_submissions_in_step (acts : list Action) (s0 : State) :
  started s0 ->
  allStarted (sessions s0) ->
  exists l rs,
    sessions (performAll acts s0) = sessions s0 ++ l /\
    postPomodoros (requests (performAll acts s0))
    = postPomodoros (requests s0) ++ rs /\
    Forall2 submitted l rs.
Proof.
  intros Hstarted Hall.
  now destruct (performAll_trace acts s0 Hstarted Hall) as (_ & _ & _ & Hstep).
Qed.



Lemma started_idle_page :
  started Demo.bound /\ allStarted (sessions Demo.bound).
Proof.
  split.
  - right. repeat split; reflexivity.
  - vm_compute. constructor.
Qed.

Lemma sessions_and_submissions_in_step_witness :
  started Demo.bound /\
  allStarted (sessions Demo.bound) /\
  exists l rs,
    sessions (performAll (TimerEvent <$> Demo.threeIntervals) Demo.bound)
    = sessions Demo.bound ++ l /\
    postPomodoros (requests (performAll (TimerEvent <$> Demo.threeIntervals) Demo.bound))
    = postPomodoros (requests Demo.bound) ++ rs /\
    Forall2 submitted l rs.
Proof.
  destruct started_idle_page as (Hstarted & Hall).
  split; [exact Hstarted |]. split; [exact Hall |].
  apply (sessions_and_submissions_in_step _ Demo.bound Hstarted Hall).
Defined.



(** ** Serializing and reviving *)

Lemma toStored_revive (dflt : string) (x : Session.t) (y : Stored.t) :
  toStored x = inr y -> revive dflt y = withLabelOr dflt x.
Proof.
  unfold toStored. destruct x as [[t0 |] e d w g label n total]; cbn; [| discriminate].
  intros [= <-]. reflexivity.
Qed.

Lemma serialize_started (l : list Session.t) (items : list Stored.t) :
  serialize l = inr items -> allStarted l.
Proof.
  revert items. induction l as [| x l IH]; intros items Hl; cbn in Hl.
  - constructor.
  - unfold toStored in Hl. destruct (Session.startTime x) as [t0 |] eqn:Hx; [| discriminate].
    destruct (serialize l) as [e | ys] eqn:Hrest; [discriminate |].
    constructor; [now exists t0 | now apply (IH ys)].
Qed.

(** X7. The log can be serialized exactly when every record has a start;
    reviving the serialized log with a fallback label then gives back every
    record, in order, with a [null] or empty label replaced by the fallback,
    so a log whose records all carry a label comes back unchanged. *)
Theorem serialize_then_revive (dflt : string) (l : list Session.t) :
  ((exists items, serialize l = inr items) <-> allStarted l) /\
  (forall items,
     serialize l = inr items ->
     revive dflt <$> items = withLabelOr dflt <$> l /\
     (Forall (fun x => exists label,
                Session.goalText x = Some label /\ truthy label = true) l ->
      revive dflt <$> items = l)).
Proof.
  split.
  - split; [intros (items & Hl); now apply (serialize_started l items)
           | apply serialize_allStarted].
  - intros items Hl.
    assert (Hrevive : revive dflt <$> items = withLabelOr dflt <$> l).
    { revert items Hl. induction l as [| x l IH]; intros items Hl; cbn in Hl.
      - now injection Hl as <-.
      - destruct (toStored x) as [e | y] eqn:Hx; [discriminate |].
        destruct (serialize l) as [e | ys] eqn:Hrest; [discriminate |].
        injection Hl as <-. cbn.
        now rewrite (toStored_revive dflt x y Hx), (IH ys eq_refl). }
    split; [exact Hrevive |].
    intros Hlabels. rewrite Hrevive. clear Hrevive Hl.
    induction Hlabels as [| x l (label & Hx & Hlabel) _ IH]; [reflexivity |].
    cbn. rewrite IH. f_equal.
    unfold withLabelOr, labelOr. rewrite Hx, Hlabel. now destruct x; cbn in *; subst.
Qed.

(** ** Pause, resume, reset *)

(** X8. Pausing a running timer and starting it again resumes the same
    interval: the time left, the recorded start, the phase, the counts and
    the log are those from before the pause, the controls are locked, and
    the one live interval is the new one.  While paused the start button
    reads "Resume" and the duration fields and the goal selector keep the
    lock they had. *)
Theorem pause_then_resume (now : Z) (s : State) (h : nat) :
  isRunning s = true ->
  intervals s = [h] ->
  timer s = Some h ->
  let p := pauseTimer s in
  let s' := startTimer now p in
  (isRunning p = false /\ isPaused p = true /\ intervals p = [] /\
   startBtn p = Button.mk false "Resume" /\
   workMinutesInput p = workMinutesInput s /\
   breakMinutesInput p = breakMinutesInput s /\
   goalSelect p = goalSelect s) /\
  (isRunning s' = true /\ isPaused s' = false /\
   timeLeft s' = timeLeft s /\ startTime s' = startTime s /\
   isWorkTime s' = isWorkTime s /\
   currentPomodoroCount s' = currentPomodoroCount s /\
   totalPomodoros s' = totalPomodoros s /\
   sessions s' = sessions s /\
   intervals s' = [nextHandle s] /\ timer s' = Some (nextHandle s) /\
   Button.disabled (startBtn s') = true /\
   Input.disabled (workMinutesInput s') = true /\
   Input.disabled (breakMinutesInput s') = true /\
   Select.disabled (goalSelect s') = true).
Proof.
  intros Hrun Hlive Htimer p s'. subst s' p.
  unfold pauseTimer. rewrite Hrun. cbn zeta.
  rewrite Htimer. unfold clearInterval. rewrite Hlive. cbn.
  destruct (decide (h <> h)) as [Hne | _]; [now destruct Hne |].
  split; [now repeat split |].
  unfold startTimer. cbn. now repeat split.
Qed.

Lemma pause_then_resume_witness :
  isRunning Demo.running = true /\
  intervals Demo.running = [0%nat] /\
  timer Demo.running = Some 0%nat /\
  startTime (startTimer 9000 (pauseTimer Demo.running)) = startTime Demo.running /\
  intervals (startTimer 9000 (pauseTimer Demo.running)) = [1%nat].
Proof.
  destruct (pause_then_resume 9000 Demo.running 0 eq_refl eq_refl eq_refl)
    as (_ & _ & _ & _ & Hstart & _ & _ & _ & _ & Hlive & _).
  split; [reflexivity |]. split; [reflexivity |]. split; [reflexivity |].
  split; [exact Hstart | exact Hlive].
Defined.

Lemma filter_ne_twice (i : nat) (l : list nat) :
  filter (fun j => j <> i) (filter (fun j => j <> i) l) = filter (fun j => j <> i) l.
Proof.
  induction l as [| j l IH]; [reflexivity |].
  rewrite (filter_cons _ j l).
  destruct (decide (j <> i)) as [Hne | Heq].
  - rewrite filter_cons, decide_True by assumption. now rewrite IH.
  - exact IH.
Qed.

Lemma clearInterval_live (i : nat) (s : State) :
  intervals (clearInterval (Some i) s) = filter (fun j => j <> i) (intervals s).
Proof. reflexivity. Qed.

(** A fresh start: the timer was neither running nor paused. *)
Lemma startTimer_fresh (now : Z) (s : State) :
  isRunning s = false ->
  isPaused s = false ->
  isPaused (startTimer now s) = false /\
  startTime (startTimer now s) = Some now /\
  statusText (startTimer now s)
  = (if isWorkTime s
     then WorkTimePomodoro (currentPomodoroCount s + 1) (totalPomodoros s)
     else BreakTime) /\
  sessions (startTimer now s) = sessions s.
Proof.
  intros Hrun Hpaused. unfold startTimer. rewrite Hrun, Hpaused. cbn.
  now repeat split.
Qed.

(** The state [resetTimer] leaves, apart from the live intervals. *)
Lemma resetTimer_fields (s : State) :
  let r := resetTimer s in
  isRunning r = false /\ isPaused r = false /\ isWorkTime r = true /\
  statusText r = ReadyToStart /\ currentPomodoroCount r = 0 /\
  startBtn r = Button.mk false "Start" /\
  Button.disabled (pauseBtn r) = true /\
  Input.disabled (workMinutesInput r) = false /\
  Input.disabled (breakMinutesInput r) = false /\
  Select.disabled (goalSelect r) = false /\
  workMinutes r = orDefault (parseInt (Input.value (workMinutesInput r))) 25 /\
  breakMinutes r = orDefault (parseInt (Input.value (breakMinutesInput r))) 5 /\
  timeLeft r = workMinutes r * 60 /\
  Input.value (workMinutesInput r) = Input.value (workMinutesInput s) /\
  totalPomodoros r = totalPomodoros s /\
  sessions r = sessions s /\
  timer r = timer s /\
  intervals r = intervals (clearInterval (timer s) s).
Proof.
  cbv zeta. unfold resetTimer, initTimer. cbn zeta. rewrite clearInterval_fields.
  cbn. now repeat split.
Qed.

(** X9. Resetting twice is resetting once, and whatever the timer was doing
    (running, paused, in a break), a start after a reset opens Work #1 of the
    goal: a fresh start instant, the Work phase, the countdown loaded from
    the work field, a zero count and the log untouched. *)
Theorem reset_then_start (now : Z) (s : State) :
  resetTimer (resetTimer s) = resetTimer s /\
  let s' := startTimer now (resetTimer s) in
  isRunning s' = true /\ isPaused s' = false /\ isWorkTime s' = true /\
  startTime s' = Some now /\
  currentPomodoroCount s' = 0 /\
  timeLeft s' = orDefault (parseInt (Input.value (workMinutesInput s))) 25 * 60 /\
  statusText s' = WorkTimePomodoro 1 (totalPomodoros s) /\
  sessions s' = sessions s.
Proof.
  destruct (resetTimer_fields s)
    as (E1 & E2 & E3 & E4 & E5 & E6 & E7 & E8 & E9 & E10 & E11 & E12 & E13
        & Hvalue & Htotal & Hsessions & Htimer & Hlive).
  split.
  - assert (Hagain : intervals (clearInterval (timer s) (resetTimer s))
                     = intervals (resetTimer s)).
    { destruct (timer s) as [i |]; [| reflexivity].
      rewrite (clearInterval_live i (resetTimer s)), Hlive, (clearInterval_live i s).
      apply filter_ne_twice. }
    unfold resetTimer at 1. cbn zeta. rewrite Htimer, clearInterval_fields, Hagain.
    remember (resetTimer s) as r eqn:Hr.
    clear Hr Htimer Hlive Hagain Hvalue Htotal Hsessions.
    destruct r as [? ? ? ? ? ? ? ? ? ? ? ? ? ? ? [pd pt] [wv wd] [bv bd] [os si sd]
                     ? ? ? ? ? ? ? ?].
    cbn in *. subst. reflexivity.
  - cbv zeta.
    destruct (startTimer_stopped now (resetTimer s) E1)
      as (Hrun & Hphase & Hleft & Hcount & _).
    destruct (startTimer_fresh now (resetTimer s) E1 E2)
      as (Hpaused & Hstart & Hstatus & Hlog).
    remember (resetTimer s) as r eqn:Hr. clear Hr.
    rewrite Hrun, Hpaused, Hphase, Hstart, Hcount, Hleft, Hstatus, Hlog.
    rewrite E3, E5, E13, E11, Hvalue, Htotal, Hsessions.
    now repeat split.
Qed.

(** ** What the page shows *)

Lemma readsBack_below_100_minutes :
  forallb readsBack (Z.of_nat <$> seq 0 (Z.to_nat 6000)) = true.
Proof. vm_compute. reflexivity. Qed.

(** X10. For a countdown below 100 minutes the display is five characters,
    two for the minutes, a colon, two for the seconds, and reading the two
    numbers back gives the minutes and seconds of [timeLeft]. *)
Theorem timeDisplay_reads_back (t : Z) :
  0 <= t < 6000 ->
  String.length (timeDisplay t) = 5%nat /\
  String.get 2 (timeDisplay t) = Some ":"%char /\
  parseInt (substring 0 2 (timeDisplay t)) = Some (t / 60) /\
  parseInt (substring 3 2 (timeDisplay t)) = Some (t mod 60).
Proof.
  intros Hrange.
  pose proof readsBack_below_100_minutes as Hall.
  rewrite forallb_forall in Hall.
  assert (Hin : In t (Z.of_nat <$> seq 0 (Z.to_nat 6000))).
  { apply list_elem_of_In, list_elem_of_fmap. exists (Z.to_nat t).
    split; [lia |]. apply list_elem_of_In, in_seq. lia. }
  specialize (Hall t Hin). unfold readsBack in Hall.
  apply andb_prop in Hall as (Hall & Hseconds).
  apply andb_prop in Hall as (Hall & Hminutes).
  apply andb_prop in Hall as (Hlength & Hcolon).
  apply Nat.eqb_eq in Hlength.
  apply bool_decide_eq_true_1 in Hcolon, Hminutes, Hseconds.
  now repeat split.
Qed.

Lemma timeDisplay_reads_back_witness :
  0 <= 1499 < 6000 /\
  timeDisplay 1499 = "24:59"%string /\
  parseInt (substring 0 2 (timeDisplay 1499)) = Some 24.
Proof.
  assert (Hrange : 0 <= 1499 < 6000) by lia.
  split; [exact Hrange |]. split; [vm_compute; reflexivity |].
  now destruct (timeDisplay_reads_back 1499 Hrange) as (_ & _ & Hminutes & _).
Defined.

(** X11. With non-negative durations and a pomodoro still to earn, the
    remaining time announced after the next completion is non-negative and
    no larger than the one announced now; when that completion meets the
    target it is zero, shown as "0m". *)
Theorem remaining_time_decreases (s : State) :
  0 <= workMinutes s ->
  0 <= breakMinutes s ->
  currentPomodoroCount s < totalPomodoros s ->
  let s' := set_currentPomodoroCount (currentPomodoroCount s + 1) s in
  0 <= totalRemainingMinutes s' <= totalRemainingMinutes s /\
  (currentPomodoroCount s + 1 = totalPomodoros s ->
   totalRemainingMinutes s' = 0 /\ remainingTimeDisplay s' = "0m"%string).
Proof.
  intros Hwork Hbreak Hmore s'. subst s'.
  unfold remainingTimeDisplay, totalRemainingMinutes. cbn.
  split.
  - destruct (Z.ltb_spec 0 (totalPomodoros s - (currentPomodoroCount s + 1) - 1));
      destruct (Z.ltb_spec 0 (totalPomodoros s - currentPomodoroCount s - 1)); nia.
  - intros Hlast.
    replace (totalPomodoros s - (currentPomodoroCount s + 1)) with 0 by lia.
    cbn. split; reflexivity.
Qed.

Lemma remaining_time_decreases_witness :
  let s := Demo.boundRunning in
  0 <= workMinutes s /\ 0 <= breakMinutes s /\
  currentPomodoroCount s < totalPomodoros s /\
  totalRemainingMinutes s = 5 /\
  totalRemainingMinutes (set_currentPomodoroCount (currentPomodoroCount s + 1) s)
  <= totalRemainingMinutes s.
Proof.
  cbv zeta.
  assert (H1 : 0 <= workMinutes Demo.boundRunning) by (vm_compute; discriminate).
  assert (H2 : 0 <= breakMinutes Demo.boundRunning) by (vm_compute; discriminate).
  assert (H3 : currentPomodoroCount Demo.boundRunning < totalPomodoros Demo.boundRunning)
    by (vm_compute; reflexivity).
  split; [exact H1 |]. split; [exact H2 |]. split; [exact H3 |].
  split; [vm_compute; reflexivity |].
  now destruct (remaining_time_decreases Demo.boundRunning H1 H2 H3) as ((_ & Hle) & _).
Defined.

(** ** The goal binding *)

Lemma orDefault_nonzero (n : option Z) (dflt : Z) :
  dflt <> 0 -> orDefault n dflt <> 0.
Proof.
  intros Hd. unfold orDefault. destruct n as [v |]; [| assumption].
  destruct (Z.eqb_spec v 0); assumption.
Qed.

(** X12. Whenever the goal selector changes, the pomodoro count restarts at
    zero and the target is never zero: it is 1 with no goal selected, and
    for a selected goal it is the number its estimate parses to, or 1 when
    the estimate is missing, unparsable or zero. *)
Theorem updateCurrentGoalDisplay_target (s : State) :
  currentPomodoroCount (updateCurrentGoalDisplay s) = 0 /\
  totalPomodoros (updateCurrentGoalDisplay s) <> 0 /\
  (Select.value (goalSelect s) = None ->
   totalPomodoros (updateCurrentGoalDisplay s) = 1) /\
  (forall o g,
     Select.selectedOption (goalSelect s) = Some o ->
     GoalOption.value o = Some g ->
     totalPomodoros (updateCurrentGoalDisplay s)
     = orDefault (parseInt (toStringNullable (GoalOption.dataEstimatedPomodoros o))) 1 /\
     (forall n,
        parseInt (toStringNullable (GoalOption.dataEstimatedPomodoros o)) = Some n ->
        n <> 0 -> totalPomodoros (updateCurrentGoalDisplay s) = n)).
Proof.
  unfold updateCurrentGoalDisplay, Select.value.
  destruct (Select.selectedOption (goalSelect s)) as [o |] eqn:Hsel.
  - destruct (GoalOption.value o) as [g |] eqn:Hval; cbn.
    + split; [reflexivity |]. split; [now apply orDefault_nonzero |].
      split; [discriminate |].
      intros o' g' [= <-] _. split; [reflexivity |].
      intros n Hn Hnz. rewrite Hn. cbn.
      destruct (Z.eqb_spec n 0); [contradiction | reflexivity].
    + split; [reflexivity |]. split; [discriminate |]. split; [reflexivity |].
      intros o' g' [= <-] Hval'. congruence.
  - cbn. split; [reflexivity |]. split; [discriminate |]. split; [reflexivity |].
    discriminate.
Qed.


Lemma indexOfValue_found (v : option GoalId) (os : list GoalOption.t) (k : Z) :
  Select.indexOfValue v os k = -1 \/
  (k <= Select.indexOfValue v os k /\
   exists o,
     nth_error os (Z.to_nat (Select.indexOfValue v os k - k)) = Some o /\
     GoalOption.value o = v).
Proof.
  revert k. induction os as [| o os IH]; intros k; cbn; [now left |].
  destruct (decide (GoalOption.value o = v)) as [Hv | _].
  - right. split; [lia |]. exists o. rewrite Z.sub_diag. now split.
  - destruct (IH (k + 1)) as [Hnone | (Hle & o' & Hnth & Hv)]; [now left |].
    right. split; [lia |]. exists o'. split; [| exact Hv].
    replace (Z.to_nat (Select.indexOfValue v os (k + 1) - k))
      with (S (Z.to_nat (Select.indexOfValue v os (k + 1) - (k + 1)))) by lia.
    exact Hnth.
Qed.

(** [select.value = ''] leaves the selector with the empty value. *)
Lemma set_value_empty (sel : Select.t) :
  Select.value (Select.set_value None sel) = None.
Proof.
  unfold Select.value, Select.selectedOption, Select.set_value. cbn.
  destruct (indexOfValue_found None (Select.options sel) 0)
    as [Hnone | (Hle & o & Hnth & Hv)].
  - rewrite Hnone. reflexivity.
  - rewrite Z.sub_0_r in Hnth.
    replace (0 <=? _) with true by (symmetry; apply Z.leb_le; lia).
    now rewrite Hnth.
Qed.

Lemma removeFirst_subset (v : option GoalId) (os : list GoalOption.t) (o : GoalOption.t) :
  o ∈ Select.removeFirst v os -> o ∈ os.
Proof.
  induction os as [| o' os IH]; cbn; [trivial |].
  destruct (decide (GoalOption.value o' = v)).
  - apply list_elem_of_further.
  - intros Hin. apply elem_of_cons in Hin as [-> | Hin].
    + apply list_elem_of_here.
    + apply list_elem_of_further, IH, Hin.
Qed.

Lemma removeFirst_others (v : option GoalId) (os : list GoalOption.t) :
  filter (fun o => GoalOption.value o <> v) (Select.removeFirst v os)
  = filter (fun o => GoalOption.value o <> v) os.
Proof.
  induction os as [| o os IH]; cbn -[filter]; [reflexivity |].
  destruct (decide (GoalOption.value o = v)) as [Hv | Hv].
  - rewrite (filter_cons _ o os). now rewrite decide_False by (intros Hne; now apply Hne).
  - rewrite !filter_cons. rewrite !decide_True by assumption. now rewrite IH.
Qed.

Lemma removeFirst_length (v : option GoalId) (os : list GoalOption.t) :
  (exists o, o ∈ os /\ GoalOption.value o = v) ->
  length os = S (length (Select.removeFirst v os)).
Proof.
  induction os as [| o os IH]; intros (o' & Hin & Hv); cbn.
  - now apply not_elem_of_nil in Hin.
  - destruct (decide (GoalOption.value o = v)) as [_ | Hne]; [reflexivity |].
    cbn. f_equal. apply IH. exists o'. split; [| exact Hv].
    apply elem_of_cons in Hin as [-> | Hin]; [contradiction | exact Hin].
Qed.

Lemma updateCurrentGoalDisplay_unbound (s : State) :
  Select.value (goalSelect s) = None ->
  totalPomodoros (updateCurrentGoalDisplay s) = 1 /\
  currentPomodoroCount (updateCurrentGoalDisplay s) = 0.
Proof.
  intros Hnone. unfold updateCurrentGoalDisplay. rewrite Hnone. now split.
Qed.

(** X13. When the Goal Store confirms a completion, exactly one option
    carrying that goal id leaves the selector (none if there is none) and
    every other option stays in place; the selector is left on the empty
    value, the target is 1 and the count 0.  A refusal changes nothing. *)
Theorem goal_complete_response (g : GoalId) (s : State) :
  markGoalAsCompleted_then g false s = s /\
  let s' := markGoalAsCompleted_then g true s in
  let before := Select.options (goalSelect s) in
  let after := Select.options (goalSelect s') in
  after = Select.removeFirst (Some g) before /\
  (forall o, o ∈ after -> o ∈ before) /\
  filter (fun o => GoalOption.value o <> Some g) after
  = filter (fun o => GoalOption.value o <> Some g) before /\
  ((exists o, o ∈ before /\ GoalOption.value o = Some g) ->
   length before = S (length after)) /\
  Select.value (goalSelect s') = None /\
  totalPomodoros s' = 1 /\
  currentPomodoroCount s' = 0.
Proof.
  split; [reflexivity |]. cbv zeta.
  unfold markGoalAsCompleted_then. cbn zeta.
  set (sel := Select.mk _ _ _).
  assert (Hempty : Select.value (Select.set_value None sel) = None)
    by apply set_value_empty.
  remember (Select.set_value None sel) as sel' eqn:Hsel'.
  assert (Hoptions : Select.options sel'
                     = Select.removeFirst (Some g) (Select.options (goalSelect s)))
    by (subst sel'; reflexivity).
  clear Hsel' sel.
  destruct (updateCurrentGoalDisplay_fields (set_goalSelect sel' s))
    as (_ & _ & _ & _ & _ & _ & _ & _ & _ & _ & Hselect).
  destruct (updateCurrentGoalDisplay_unbound (set_goalSelect sel' s) Hempty)
    as (Htotal & Hcount).
  rewrite Hselect, Hcount. cbn [goalSelect set_goalSelect].
  rewrite Hoptions.
  split; [reflexivity |].
  split; [apply removeFirst_subset |].
  split; [apply removeFirst_others |].
  split; [apply removeFirst_length |].
  split; [exact Hempty |].
  split; [exact Htotal | reflexivity].
Qed.

(** ** Page load *)

(** What [initFromUrlParams] touches: the goal binding, the duration fields
    and variables, the countdown, the auto-start flag and its timeout. *)
Lemma initFromUrlParams_fields (q : Query.t) (s : State) :
  let s' := initFromUrlParams q s in
  isRunning s' = isRunning s /\ isPaused s' = isPaused s /\
  isWorkTime s' = isWorkTime s /\ intervals s' = intervals s /\
  startTime s' = startTime s /\ sessions s' = sessions s /\
  console s' = console s /\ localStorage s' = localStorage s /\
  userId s' = userId s /\ requests s' = requests s /\
  utcOffset s' = utcOffset s /\
  Select.options (goalSelect s') = Select.options (goalSelect s) /\
  timeLeft s' = workMinutes s' * 60 /\
  currentPomodoroCount s'
  = (if Query.goalId q is Some _ then 0 else currentPomodoroCount s) /\
  timeouts s'
  = timeouts s ++
    (if Params.autoStart (getUrlParams q) then [(nextHandle s, 500)] else []).
Proof.
  cbv zeta. unfold initFromUrlParams. cbn zeta.
  set (params := getUrlParams q).
  assert (Hgoal : Params.goalId params = Query.goalId q) by reflexivity.
  remember (match Params.goalId params with
            | Some g =>
                updateCurrentGoalDisplay
                  (set_goalSelect (Select.set_value (Some g) (goalSelect s)) s)
            | None => set_totalPomodoros 1 s
            end) as s1 eqn:Hs1.
  assert (H1 : isRunning s1 = isRunning s /\ isPaused s1 = isPaused s /\
               isWorkTime s1 = isWorkTime s /\ intervals s1 = intervals s /\
               startTime s1 = startTime s /\ sessions s1 = sessions s /\
               console s1 = console s /\ localStorage s1 = localStorage s /\
               userId s1 = userId s /\ requests s1 = requests s /\
               utcOffset s1 = utcOffset s /\
               Select.options (goalSelect s1) = Select.options (goalSelect s) /\
               currentPomodoroCount s1
               = (if Query.goalId q is Some _ then 0 else currentPomodoroCount s) /\
               timeouts s1 = timeouts s /\ nextHandle s1 = nextHandle s).
  { subst s1. rewrite Hgoal. destruct (Query.goalId q) as [g |]; [| now repeat split].
    unfold updateCurrentGoalDisplay.
    match goal with
    | |- context [Select.value ?x] =>
        destruct (Select.value x), (Select.selectedOption x); cbn; now repeat split
    end. }
  clear Hs1 Hgoal.
  destruct H1 as (E1 & E2 & E3 & E4 & E5 & E6 & E7 & E8 & E9 & E10 & E11 & E12 & E13
                  & E14 & E15).
  unfold initTimer, setTimeout.
  destruct (Params.autoStart params);
    destruct (Params.duration params =? 0);
    destruct (Params.breakDuration params =? 0);
    cbn; rewrite ?app_nil_r, E1, E2, E3, E4, E5, E6, E7, E8, E9, E10, E11, E12, E13,
           E14, ?E15;
    now repeat split.
Qed.

Lemma loadSessions_fields (now : Z) (s : State) :
  let s' := loadSessions now s in
  isRunning s' = isRunning s /\ isPaused s' = isPaused s /\
  isWorkTime s' = isWorkTime s /\ intervals s' = intervals s /\
  startTime s' = startTime s /\ timeLeft s' = timeLeft s /\
  workMinutes s' = workMinutes s /\
  currentPomodoroCount s' = currentPomodoroCount s /\
  timeouts s' = timeouts s /\ requests s' = requests s /\
  localStorage s' = localStorage s /\
  goalSelect s' = goalSelect s /\
  (sessions s <> [] -> sessions s' = sessions s /\ console s' = console s) /\
  (sessions s = [] -> sessions s' = []).
Proof.
  cbv zeta. unfold loadSessions.
  destruct (truthy (userId s)); [| now repeat split].
  destruct (decide (sessions s = [])) as [Hnil | Hne]; [| now repeat split].
  destruct (localStorage s !! storageKey (userId s)); cbn; now repeat split.
Qed.

Lemma matchGoalIdsWithDropdown_fields (s : State) :
  let s' := matchGoalIdsWithDropdown s in
  isRunning s' = isRunning s /\ isPaused s' = isPaused s /\
  isWorkTime s' = isWorkTime s /\ intervals s' = intervals s /\
  startTime s' = startTime s /\ timeLeft s' = timeLeft s /\
  workMinutes s' = workMinutes s /\
  currentPomodoroCount s' = currentPomodoroCount s /\
  timeouts s' = timeouts s /\ requests s' = requests s /\
  localStorage s' = localStorage s /\ console s' = console s /\
  sessions s'
  = relabel (availableGoals (Select.options (goalSelect s))) <$> sessions s.
Proof.
  cbv zeta. unfold matchGoalIdsWithDropdown.
  destruct (decide (sessions s = [])) as [Hnil | Hne]; cbn; [| now repeat split].
  rewrite Hnil. now repeat split.
Qed.

(** X14. When the server hands over a non-empty list of sessions, the log
    after page load is that list, in the server's order and whatever the day
    of its sessions, each with its label refreshed from the goal selector;
    the cache of the user is neither read nor written, and the console holds
    the [ReferenceError] raised where the list was to be filtered. *)
Theorem server_sessions_take_precedence (x : Stored.t) (l : list Stored.t)
    (q : Query.t) (now : Z) (s : State) :
  let s' := initTimerPage (Some (x :: l)) q now s in
  sessions s'
  = relabel (availableGoals (Select.options (goalSelect s)))
      <$> (revive "No goal selected" <$> (x :: l)) /\
  localStorage s' = localStorage s /\
  console s' = console s ++ [ErrorParsingServerSessions (ReferenceError "allSessions")].
Proof.
  cbv zeta. unfold initTimerPage. cbn zeta. cbn [allSessions].
  set (s0 := set_console _ _).
  destruct (initFromUrlParams_fields q s0)
    as (_ & _ & _ & _ & _ & I6 & I7 & I8 & _ & _ & _ & I12 & _).
  remember (initFromUrlParams q s0) as s1 eqn:Hs1. clear Hs1.
  assert (Hne : sessions s1 <> []) by (rewrite I6; subst s0; cbn; discriminate).
  destruct (loadSessions_fields now s1)
    as (_ & _ & _ & _ & _ & _ & _ & _ & _ & _ & L11 & L12 & Lkeep & _).
  destruct (Lkeep Hne) as (L13 & L14).
  remember (loadSessions now s1) as s2 eqn:Hs2. clear Hs2.
  destruct (matchGoalIdsWithDropdown_fields s2)
    as (_ & _ & _ & _ & _ & _ & _ & _ & _ & _ & M11 & M12 & M13).
  rewrite M13, M11, M12, L11, L12, L13, L14, I6, I7, I8, I12.
  subst s0. cbn. now repeat split.
Qed.

Lemma allStarted_revive (dflt : string) (items : list Stored.t) :
  allStarted (revive dflt <$> items).
Proof.
  induction items as [| y items IH]; cbn; constructor; [| exact IH].
  now exists (Stored.startTime y).
Qed.

Lemma allStarted_relabel (goals : gmap GoalId string) (l : list Session.t) :
  allStarted l -> allStarted (relabel goals <$> l).
Proof.
  induction 1 as [| x l Hx _ IH]; cbn; constructor; [| exact IH].
  unfold relabel. destruct (Session.goalId x) as [g |]; [| exact Hx].
  destruct (goals !! g) as [label |]; [| exact Hx].
  destruct (truthy label); exact Hx.
Qed.

(** X15. Whatever the query string, the server data and the cache, the page
    comes out of [initTimerPage] idle in the Work phase: not running, not
    paused, no live interval, nothing counted, nothing requested, the
    countdown loaded with a full Work interval, every record of the log
    with a start, and one 500 ms auto-start timeout exactly when the query
    asks for it. *)
Theorem page_load_is_idle (serverData : option (list Stored.t)) (q : Query.t)
    (now : Z) (status : Status) (start pause : Button.t) (work break : Input.t)
    (goals : Select.t) (user : string) (storage : gmap string (list Stored.t))
    (offset : Z) :
  let s := initTimerPage serverData q now
             (scriptLoaded status start pause work break goals user storage offset) in
  isRunning s = false /\ isPaused s = false /\ isWorkTime s = true /\
  intervals s = [] /\
  currentPomodoroCount s = 0 /\
  requests s = [] /\
  timeLeft s = workMinutes s * 60 /\
  allStarted (sessions s) /\
  timeouts s = (if Params.autoStart (getUrlParams q) then [(0%nat, 500)] else []).
Proof.
  cbv zeta. unfold initTimerPage. cbn zeta.
  set (loaded := scriptLoaded _ _ _ _ _ _ _ _ _).
  remember (match serverData with
            | Some ((_ :: _) as serverSessions) => _
            | _ => loaded
            end) as s0 eqn:Hs0.
  assert (H0 : isRunning s0 = false /\ isPaused s0 = false /\ isWorkTime s0 = true /\
               intervals s0 = [] /\ currentPomodoroCount s0 = 0 /\ requests s0 = [] /\
               timeouts s0 = [] /\ nextHandle s0 = 0%nat /\ allStarted (sessions s0)).
  { subst s0. destruct serverData as [[| x l] |]; cbn;
      repeat split; try constructor.
    - now exists (Stored.startTime x).
    - apply allStarted_revive. }
  clear Hs0. destruct H0 as (Z1 & Z2 & Z3 & Z4 & Z5 & Z6 & Z7 & Z8 & Z9).
  destruct (initFromUrlParams_fields q s0)
    as (I1 & I2 & I3 & I4 & _ & I6 & _ & _ & _ & I10 & _ & _ & I13 & I14 & I15).
  remember (initFromUrlParams q s0) as s1 eqn:Hs1. clear Hs1.
  destruct (loadSessions_fields now s1)
    as (L1 & L2 & L3 & L4 & _ & L6 & L7 & L8 & L9 & L10 & _ & _ & Lkeep & Lnil).
  assert (Hlog : allStarted (sessions (loadSessions now s1))).
  { destruct (decide (sessions s1 = [])) as [Hnil | Hne].
    - rewrite (Lnil Hnil). constructor.
    - destruct (Lkeep Hne) as (-> & _). now rewrite I6. }
  remember (loadSessions now s1) as s2 eqn:Hs2. clear Hs2.
  destruct (matchGoalIdsWithDropdown_fields s2)
    as (M1 & M2 & M3 & M4 & _ & M6 & M7 & M8 & M9 & M10 & _ & _ & M13).
  rewrite M1, M2, M3, M4, M6, M7, M8, M9, M10, M13.
  rewrite L1, L2, L3, L4, L6, L7, L8, L9, L10.
  rewrite I1, I2, I3, I4, I10, I13, I14, I15, Z1, Z2, Z3, Z4, Z5, Z6, Z7, Z8.
  split; [reflexivity |]. split; [reflexivity |]. split; [reflexivity |].
  split; [reflexivity |].
  split; [now destruct (Query.goalId q) |].
  split; [reflexivity |]. split; [reflexivity |].
  split; [now apply allStarted_relabel | reflexivity].
Qed.

(** ** Numbers written into a field and read back *)







Lemma orDefault_orDefault (n : option Z) (dflt : Z) :
  dflt <> 0 -> orDefault (Some (orDefault n dflt)) dflt = orDefault n dflt.
Proof.
  intros Hd. pose proof (orDefault_nonzero n dflt Hd) as Hnz.
  cbn. now destruct (Z.eqb_spec (orDefault n dflt) 0).
Qed.


(** ** A whole Work interval *)

(** X17. Starting an idle timer in the Work phase and letting its interval
    turn until the countdown is used up produces exactly one record: it
    spans the instant of the start and the instant of the last turn, lasts
    their difference in whole seconds, and is numbered with the incremented
    count; the timer is then stopped and no interval is live. *)
Theorem work_interval_records_once (t0 t1 : Z) (nows : list Z) (s : State) :
  isRunning s = false ->
  isPaused s = false ->
  isWorkTime s = true ->
  intervals s = [] ->
  timeLeft s = Z.of_nat (length nows) + 1 ->
  let s' := run (Start t0 :: turns (nextHandle s) (nows ++ [t1])) s in
  sessions s'
  = sessions s ++
    [Session.mk (Some t0) t1 (Some ((t1 - t0) / 1000)) true
       (Select.value (goalSelect s)) (selectedGoalText (goalSelect s))
       (currentPomodoroCount s + 1) (totalPomodoros s)] /\
  currentPomodoroCount s' = currentPomodoroCount s + 1 /\
  isRunning s' = false /\
  intervals s' = [].
Proof.
  intros Hrun Hpaused Hwork Hnone Hleft. cbv zeta.
  change (run (Start t0 :: turns (nextHandle s) (nows ++ [t1])) s)
    with (run (turns (nextHandle s) (nows ++ [t1])) (startTimer t0 s)).
  destruct (startTimer_stopped t0 s Hrun) as (_ & Hphase & Htime & Hcount & Htotal & Hlive).
  destruct (startTimer_fresh t0 s Hrun Hpaused) as (_ & Hstart & _ & Hlog).
  assert (Hselect : goalSelect (startTimer t0 s)
                    = Select.set_disabled true (goalSelect s) /\
                    timer (startTimer t0 s) = Some (nextHandle s)).
  { unfold startTimer. rewrite Hrun, Hpaused. now split. }
  destruct Hselect as (Hselect & Htimer).
  rewrite Hnone in Hlive. cbn in Hlive.
  remember (startTimer t0 s) as s1 eqn:Hs1. clear Hs1.
  assert (Hin : nextHandle s ∈ intervals s1) by (rewrite Hlive; apply list_elem_of_here).
  unfold turns, run. rewrite fmap_app, fold_left_app.
  pose proof (turns_count_down (nextHandle s) nows s1 Hin) as Hdown.
  unfold turns, run in Hdown. rewrite Hdown by lia. cbn [fmap list_fmap fold_left handle].
  rewrite tick_completes by (cbn; first [exact Hin | lia]).
  rewrite clearInterval_fields.
  match goal with
  | |- context [completeSession t1 ?x] => remember x as s2 eqn:Hs2
  end.
  assert (H2 : isWorkTime s2 = true /\ startTime s2 = Some t0 /\
               sessions s2 = sessions s /\
               currentPomodoroCount s2 = currentPomodoroCount s /\
               totalPomodoros s2 = totalPomodoros s /\
               goalSelect s2 = Select.set_disabled true (goalSelect s) /\
               intervals s2 = []).
  { subst s2. cbn. rewrite Hphase, Hstart, Hlog, Hcount, Htotal, Hselect, Htimer.
    cbn. rewrite Hlive. cbn.
    rewrite decide_False by (intros Hne; now apply Hne). now repeat split. }
  clear Hs2. destruct H2 as (W & S0 & L & C & T & G & I).
  split.
  - rewrite completeSession_sessions, W, L. f_equal.
    unfold sessionRecord. cbn. rewrite S0, C, T, G. reflexivity.
  - rewrite (completeSession_work t1 s2 t0 W S0).
    pose proof (recorded_frame t1 s2) as
      (_ & Hc & _ & _ & _ & _ & _ & _ & _ & _ & Hi & _).
    pose proof (completeSession_intervals t1 s2 I) as Hnolive.
    rewrite (completeSession_work t1 s2 t0 W S0) in Hnolive.
    remember (recorded t1 s2) as r eqn:Hr. clear Hr.
    destruct (_ <=? _).
    + destruct (taskCompleted_fields (Select.value (goalSelect s2)) r)
        as (Ec & _ & Er & _).
      rewrite Ec, Er, Hc, C. now repeat split.
    + destruct (switchToBreak_fields r) as (Ec & _ & Er & _).
      rewrite Ec, Er, Hc, C. now repeat split.
Qed.

Lemma work_interval_records_once_witness :
  let nows := (fun i => 2000 + 1000 * Z.of_nat i) <$> seq 1 59 in
  isRunning Demo.bound = false /\
  isWorkTime Demo.bound = true /\
  timeLeft Demo.bound = Z.of_nat (length nows) + 1 /\
  exists x,
    sessions (run (Start 2000 :: turns (nextHandle Demo.bound) (nows ++ [62000]))
                Demo.bound) = sessions Demo.bound ++ [x] /\
    Session.duration x = Some 60.
Proof.
  cbv zeta.
  assert (Hleft : timeLeft Demo.bound
                  = Z.of_nat (length ((fun i => 2000 + 1000 * Z.of_nat i) <$> seq 1 59)) + 1)
    by (vm_compute; reflexivity).
  split; [reflexivity |]. split; [reflexivity |]. split; [exact Hleft |].
  destruct (work_interval_records_once 2000 62000
              ((fun i => 2000 + 1000 * Z.of_nat i) <$> seq 1 59) Demo.bound
              eq_refl eq_refl eq_refl eq_refl Hleft) as (Hlog & _).
  eexists. split; [exact Hlog | reflexivity].
Defined.
